(** * FxRunner: the FXServer process supervisor

    A shallow embedding of [core/modules/FxRunner/index.js]: the command
    encoder of [sendCommand], the lifecycle history with its status
    projection [getStatus], and the asynchronous operations [spawnServer],
    [killServer] and [restartServer] cut at their [await] points.

    JavaScript strings are represented by [string], read as the UTF-8 bytes
    that [stdin.write] puts on the wire; integral numbers by the [Z] that a
    double holds. *)

From Stdlib Require Import ZArith Lia Ascii.
From Stdlib Require DecimalString HexadecimalString.
From stdpp Require Import base list strings.

Set Warnings "-register-all".

Local Open Scope Z_scope.

(** ** Strings *)

Module Js.

(** The character U+0022. *)
Definition quote_char : ascii := ascii_of_nat 34.
Definition newline_char : ascii := ascii_of_nat 10.
Definition dq : string := String quote_char EmptyString.
Definition nl : string := String newline_char EmptyString.

(** ['＂'], FULLWIDTH QUOTATION MARK, as its three UTF-8 bytes. *)
Definition fullwidth_quote : string :=
  String (ascii_of_nat 239) (String (ascii_of_nat 188)
    (String (ascii_of_nat 130) EmptyString)).

(** The class [\w] of a regular expression without the [u] flag:
    [A-Za-z0-9_]. *)
Definition is_word_char (c : ascii) : bool :=
  let n := nat_of_ascii c in
  ((48 <=? n) && (n <=? 57) || (65 <=? n) && (n <=? 90)
   || (97 <=? n) && (n <=? 122) || (n =? 95))%nat.

Fixpoint all_chars (p : ascii -> bool) (s : string) : bool :=
  match s with
  | EmptyString => true
  | String c s' => p c && all_chars p s'
  end.

(** [/^\w+$/.test(s)]: without the [m] flag [$] only matches at the very
    end of the input, so the whole of [s] is one or more word characters. *)
Definition test_word (s : string) : bool :=
  match s with
  | EmptyString => false
  | String _ _ => all_chars is_word_char s
  end.

(** [x.replaceAll(/c/g, by)] for a pattern that is the single character
    [c]. *)
Fixpoint replaceAll (c : ascii) (by_ : string) (x : string) : string :=
  match x with
  | EmptyString => EmptyString
  | String a x' =>
      if Ascii.eqb a c then by_ +:+ replaceAll c by_ x'
      else String a (replaceAll c by_ x')
  end.

(** [xs.join(sep)]. *)
Fixpoint join (sep : string) (xs : list string) : string :=
  match xs with
  | [] => EmptyString
  | [x] => x
  | x :: rest => x +:+ sep +:+ join sep rest
  end.

(** [s.length === 0] *)
Definition is_empty (s : string) : bool :=
  match s with EmptyString => true | _ => false end.

(** Truthiness of a string or [null]/[undefined] value. *)
Definition truthy_string (o : option string) : bool :=
  match o with
  | Some s => negb (is_empty s)
  | None => false
  end.

(** ** Numbers

    A number is a finite ratio, [NaN] or an infinity.  The finite numbers
    JavaScript has are the doubles; the integral ones are all the integers
    of magnitude up to [2^53] and, above, the multiples of a power of two
    with 53 significant bits. *)
Inductive number :=
  | Finite (num : Z) (den : positive)
  | NaN
  | Infinity (negative : bool).

Definition Number_isInteger (n : number) : bool :=
  match n with
  | Finite num den => (num mod Z.pos den =? 0)
  | _ => false
  end.

Definition int (z : Z) : number := Finite z 1.

(** The decimal numeral of an integer, ["-"] in front of a negative one. *)
Definition Z_toString (z : Z) : string :=
  DecimalString.NilZero.string_of_int (Z.to_int z).

(** The number of digits of the decimal numeral of a positive integer. *)
Definition digits (z : Z) : Z := Z.of_nat (String.length (Z_toString z)).

(** The distance from the double [z], of at least [2^52], to the next
    double. *)
Definition ulp (z : Z) : Z := 2 ^ (Z.log2 z - 52).

(** Whether an integer is a double. *)
Definition is_double (z : Z) : bool :=
  (Z.abs z <? 2 ^ 53)
  || (Z.abs z mod ulp (Z.abs z) =? 0) && (Z.abs z <? 2 ^ 1024).

(** Whether the real number [v] rounds to the double [z], of at least
    [2^53]: it lies within half the distance to the neighbours of [z], the
    ends included when the significand of [z] is even.  The neighbour below
    a power of two is at half the distance. *)
Definition reads_as (z : Z) (v : Z) : bool :=
  let m := z / ulp z in
  let below := if m =? 2 ^ 52 then ulp z else 2 * ulp z in
  let above := 2 * ulp z in
  if Z.even m
  then (4 * z - below <=? 4 * v) && (4 * v <=? 4 * z + above)
  else (4 * z - below <? 4 * v) && (4 * v <? 4 * z + above).

(** The pairs [(s, q)] with [s] of [k] digits for which [s * 10^q] reads as
    [z], the nearest to [z] first. *)
Definition candidates (z : Z) (k : Z) : list (Z * Z) :=
  let q := digits z - k in
  let s := z / 10 ^ q in
  List.filter
    (fun c => (10 ^ (k - 1) <=? fst c) && (fst c <? 10 ^ k)
              && reads_as z (fst c * 10 ^ snd c))
    (if z - s * 10 ^ q <=? (s + 1) * 10 ^ q - z
     then [(s, q); (s + 1, q)] else [(s + 1, q); (s, q)]).

Fixpoint shortest_from (z : Z) (k : Z) (fuel : nat) : Z * Z :=
  match fuel with
  | O => (z, 0)
  | S fuel' =>
      match candidates z k with
      | c :: _ => c
      | [] => shortest_from z (k + 1) fuel'
      end
  end.

(** The digits [s] and the exponent [q] of [Number::toString] for a double
    [z] of at least [2^53]: [s * 10^q] reads as [z] and [s] has as few
    digits as possible. *)
Definition shortest (z : Z) : Z * Z :=
  if reads_as z (10 ^ digits z) then (1, digits z)
  else shortest_from z 1 (Z.to_nat (digits z)).

Fixpoint zeros (n : nat) : string :=
  match n with
  | O => EmptyString
  | S n' => String "0" (zeros n')
  end.

(** The digits followed by the zeros, for a number below [10^21]. *)
Definition positional (s q : Z) : string :=
  Z_toString s +:+ zeros (Z.to_nat q).

(** The first digit, the others after a point when there are any, and the
    exponent, for a number from [10^21] on. *)
Definition exponential (s q : Z) : string :=
  match Z_toString s with
  | String d EmptyString =>
      String d EmptyString +:+ "e+" +:+ Z_toString (q + digits s - 1)
  | String d rest =>
      String d EmptyString +:+ "." +:+ rest +:+ "e+"
        +:+ Z_toString (q + digits s - 1)
  | EmptyString => EmptyString
  end.

(** The text of a double [z] of at least [2^53]. *)
Definition large_toString (z : Z) : string :=
  let '(s, q) := shortest z in
  if digits s + q <=? 21 then positional s q else exponential s q.

(** [Number::toString] for an integral double: the decimal numeral below
    [2^53], where every integer is a double of its own; from there on, the
    shortest digits that read as the same double. *)
Definition integral_toString (z : Z) : string :=
  if Z.abs z <? 2 ^ 53 then Z_toString z
  else if z <? 0 then "-" +:+ large_toString (- z)
  else large_toString z.

(** [`${n}`] for an integral [n]. *)
Definition Number_toString (n : number) : string :=
  match n with
  | Finite num den => integral_toString (num / Z.pos den)
  | NaN => "NaN"
  | Infinity false => "Infinity"
  | Infinity true => "-Infinity"
  end.

(** ** JSON values and [JSON.stringify]

    An object is given by the properties [JSON.stringify] enumerates, in its
    order: the keys that are array indices in ascending order, then the
    others in the order of their creation, without the properties whose value
    is [undefined], a function or a symbol.  A number in it is an integral
    double.  Two leaves make the serialization throw a [TypeError]: a
    [BigInt], and a reference back to an object that is being serialized. *)
Inductive json :=
  | JNull
  | JBool (b : bool)
  | JNum (z : Z)
  | JStr (s : string)
  | JArr (items : list json)
  | JObj (fields : list (string * json))
  | JBigInt (z : Z)
  | JCircular.

Definition hex_digit (n : nat) : ascii :=
  ascii_of_nat (if (n <? 10)%nat then 48 + n else 87 + n)%nat.

(** One character of [QuoteJSONString]. *)
Definition quote_json_char (c : ascii) : string :=
  let n := nat_of_ascii c in
  if (n =? 8)%nat then "\b"
  else if (n =? 9)%nat then "\t"
  else if (n =? 10)%nat then "\n"
  else if (n =? 12)%nat then "\f"
  else if (n =? 13)%nat then "\r"
  else if (n =? 34)%nat then String "\" dq
  else if (n =? 92)%nat then "\\"
  else if (n <? 32)%nat then
    "\u00" +:+ String (hex_digit (n / 16)) (String (hex_digit (n mod 16)) EmptyString)
  else String c EmptyString.

Fixpoint quote_json_chars (s : string) : string :=
  match s with
  | EmptyString => EmptyString
  | String c s' => quote_json_char c +:+ quote_json_chars s'
  end.

Definition QuoteJSONString (s : string) : string :=
  dq +:+ quote_json_chars s +:+ dq.

(** A synchronous call either returns or throws an error with a message. *)
Inductive completion (A : Type) :=
  | Return (a : A)
  | Throw (message : string).
Global Arguments Return {A} a.
Global Arguments Throw {A} message.

Definition bind {A B : Type} (c : completion A) (f : A -> completion B)
    : completion B :=
  match c with
  | Return a => f a
  | Throw message => Throw message
  end.

Fixpoint JSON_stringify (j : json) : completion string :=
  match j with
  | JNull => Return "null"
  | JBool true => Return "true"
  | JBool false => Return "false"
  | JNum z => Return (integral_toString z)
  | JStr s => Return (QuoteJSONString s)
  | JArr items =>
      bind
        ((fix elements (items : list json) : completion (list string) :=
            match items with
            | [] => Return []
            | item :: rest =>
                bind (JSON_stringify item) (fun text =>
                bind (elements rest) (fun texts => Return (text :: texts)))
            end) items)
        (fun texts => Return ("[" +:+ join "," texts +:+ "]"))
  | JObj fields =>
      bind
        ((fix properties (fields : list (string * json))
            : completion (list string) :=
            match fields with
            | [] => Return []
            | (k, v) :: rest =>
                bind (JSON_stringify v) (fun text =>
                bind (properties rest) (fun texts =>
                Return ((QuoteJSONString k +:+ ":" +:+ text) :: texts)))
            end) fields)
        (fun texts => Return ("{" +:+ join "," texts +:+ "}"))
  | JBigInt _ => Throw "Do not know how to serialize a BigInt"
  | JCircular => Throw "Converting circular structure to JSON"
  end.

(** ** Values that reach [sendCommand] as arguments

    An array and a plain object are given by their JSON trees.  Any other
    object (one with a [toJSON] method, a [Date], a boxed primitive) is
    given by the value [JSON.stringify] serializes in its place, which is
    [None] when [JSON.stringify] returns [undefined] for it. *)
Inductive value :=
  | VUndefined
  | VNull
  | VBoolean (b : bool)
  | VNumber (n : number)
  | VString (s : string)
  | VArray (items : list json)
  | VObject (fields : list (string * json))
  | VExotic (serialized : option json).

End Js.
Import Js.

(** ** The supervisor's data *)

(** A lifecycle timestamp holds [false] until it is assigned the number
    that [now()] returned. *)
Inductive stamp :=
  | Absent
  | At (t : Z).

(** Truthiness, as [if (x)] and [!x] see the field. *)
Definition truthy (x : stamp) : bool :=
  match x with
  | Absent => false
  | At t => negb (t =? 0)
  end.

Record Timestamps := {
  start : stamp;
  kill : stamp;
  exit : stamp;
  close : stamp;
}.

Record HistoryEntry := {
  pid : string;
  timestamps : Timestamps;
}.

Definition set_kill (t : Z) (e : HistoryEntry) : HistoryEntry :=
  {| pid := pid e;
     timestamps := {| start := start (timestamps e); kill := At t;
                      exit := exit (timestamps e); close := close (timestamps e) |} |}.

Definition set_exit (t : Z) (e : HistoryEntry) : HistoryEntry :=
  {| pid := pid e;
     timestamps := {| start := start (timestamps e); kill := kill (timestamps e);
                      exit := At t; close := close (timestamps e) |} |}.

Definition set_close (t : Z) (e : HistoryEntry) : HistoryEntry :=
  {| pid := pid e;
     timestamps := {| start := start (timestamps e); kill := kill (timestamps e);
                      exit := exit (timestamps e); close := At t |} |}.

(** The object [child_process.spawn] returns; its [pid] is [undefined] when
    the operating system started no process. *)
Record ChildProcess := {
  child_pid : option N;
}.

Record SpawnVariables := {
  command : string;
  args : list string;
}.

(** The fields of [FxRunner] that the operations below read or write. *)
Record FxRunner := {
  spawnVariables : option SpawnVariables;
  fxChild : option ChildProcess;
  restartSpawnDelayOverride : Z;
  history : list HistoryEntry;
  lastKillRequest : Z;
  fxServerHost : option string;
  currentMutex : option string;
}.

(** The state the constructor leaves. *)
Definition constructed : FxRunner :=
  {| spawnVariables := None;
     fxChild := None;
     restartSpawnDelayOverride := 0;
     history := [];
     lastKillRequest := 0;
     fxServerHost := None;
     currentMutex := None |}.

(** What the supervisor does to its collaborators, in program order;
    [Uncaught] is an error that leaves a listener, for whoever emitted the
    event. *)
Inductive effect :=
  | Console (method text : string)
  | ConsoleDir
  | StdinWrite (data : string)
  | LogAdminCommand (author command : string)
  | LogSystemCommand (command : string)
  | ResetToken
  | ResetMonitorStats
  | BufferPlayerlist (mutex : option string)
  | SendAnnouncement (type key : string)
  | Spawn (vars : SpawnVariables) (cwd : option string)
  | LogFxserverBoot (pid : string)
  | PushRefresh
  | Sleep (ms : Z)
  | KillSignal (child : ChildProcess)
  | ResourcesHandleServerStop
  | PlayerlistHandleServerStop (mutex : option string)
  | LogServerClose (reason : string)
  | SetTimeout (ms : Z) (text : string)
  | ProcessStdoutWrite (data : string)
  | Uncaught (message : string).

(** The configuration the operations consult, in [txConfig]. *)
Record TxConfig := {
  server_dataPath : option string;
  server_cfgPath : option string;
  server_shutdownNoticeDelayMs : Z;
  server_restartSpawnDelayMs : Z;
  general_serverName : string;
}.

(** ** The status projection *)

Inductive key := Kstart | Kkill | Kexit | Kclose.

Definition key_name (k : key) : string :=
  match k with
  | Kstart => "start"
  | Kkill => "kill"
  | Kexit => "exit"
  | Kclose => "close"
  end.

(** [Object.keys(x.timestamps)], in the order the literal lists them. *)
Definition Object_keys : list key := [Kstart; Kkill; Kexit; Kclose].

Definition get (ts : Timestamps) (k : key) : stamp :=
  match k with
  | Kstart => start ts
  | Kkill => kill ts
  | Kexit => exit ts
  | Kclose => close ts
  end.

(** [Object.keys(..).filter((k) => !curr.timestamps[k])] *)
Definition pending_keys (curr : HistoryEntry) : list key :=
  List.filter (fun k => negb (truthy (get (timestamps curr) k))) Object_keys.

Definition getStatus (history : list HistoryEntry) : completion string :=
  match last history with
  | None => Return "not started"
  | Some curr =>
      if negb (truthy (start (timestamps curr))) && (length history =? 1)%nat then
        Throw "This should NOT happen. Let's see how long people will take to find this..."
      else if negb (truthy (start (timestamps curr))) then
        match history !! (length history - 2)%nat with
        | None => Throw "TypeError"
        | Some _ =>
            let pending := pending_keys curr in
            if (length pending =? 0)%nat then Return "spawn ready"
            else Return ("spawn awaiting last: " +:+ join ", " (map key_name pending))
        end
      else if truthy (kill (timestamps curr)) then
        let pending := pending_keys curr in
        if negb (length pending =? 0)%nat then
          Return ("kill pending: " +:+ join ", " (map key_name pending))
        else Return "killed"
      else if truthy (exit (timestamps curr)) && negb (truthy (close (timestamps curr))) then
        Return "closing"
      else if truthy (exit (timestamps curr)) && truthy (close (timestamps curr)) then
        Return "closed"
      else Return "spawned"
  end.

(** ** Commands to the child's standard input *)

Section Commands.

(** [fxChild.stdin.write(data)]: the flag it returns, or the error it
    throws. *)
Variable stdin_write : string -> completion bool.

(** [typeof author !== 'undefined' && typeof author !== 'string'] is checked
    before the child process is looked at. *)
Definition sendRawCommand (this : FxRunner) (command : string)
    (author : value) : list effect * completion bool :=
  match author with
  | VUndefined | VString _ =>
      match fxChild this with
      | None => ([], Return false)
      | Some _ =>
          match stdin_write (command +:+ nl) with
          | Return success =>
              ([StdinWrite (command +:+ nl);
                match author with
                | VString a =>
                    if is_empty a then LogSystemCommand command
                    else LogAdminCommand a command
                | _ => LogSystemCommand command
                end],
               Return success)
          | Throw _ =>
              ([StdinWrite (command +:+ nl);
                Console "error" "Error writing to fxChild's stdin."; ConsoleDir],
               Return false)
          end
      end
  | _ => ([], Throw "Expected author as String!")
  end.

Definition sanitizeArgString (x : string) : string :=
  replaceAll newline_char " " (replaceAll quote_char fullwidth_quote x).

(** [` "${sanitizeArgString(JSON.stringify(arg))}"`] without its space. *)
Definition stringified (j : json) : completion string :=
  bind (JSON_stringify j) (fun text =>
  Return (dq +:+ sanitizeArgString text +:+ dq)).

(** What one turn of the [for (const arg of cmdArgs)] loop adds to
    [rawInput] after the space, or the error it throws.  For an object for
    which [JSON.stringify] returns [undefined], the call of [replaceAll] on
    it raises a [TypeError]. *)
Definition sendCommand_arg (arg : value) : completion string :=
  match arg with
  | VString s =>
      if is_empty s then Return (dq +:+ dq)
      else if test_word s then Return s
      else Return (dq +:+ sanitizeArgString s +:+ dq)
  | VArray items => stringified (JArr items)
  | VObject fields => stringified (JObj fields)
  | VExotic (Some j) => stringified j
  | VExotic None =>
      Throw "Cannot read properties of undefined (reading 'replaceAll')"
  | VNumber n =>
      if Number_isInteger n then Return (Number_toString n)
      else Throw "arg expected to be string or object"
  | VUndefined | VNull | VBoolean _ =>
      Throw "arg expected to be string or object"
  end.

(** The [for (const arg of cmdArgs)] loop of [sendCommand]. *)
Fixpoint sendCommand_args (rawInput : string) (cmdArgs : list value)
    : completion string :=
  match cmdArgs with
  | [] => Return rawInput
  | arg :: rest =>
      bind (sendCommand_arg arg) (fun text =>
      sendCommand_args (rawInput +:+ " " +:+ text) rest)
  end.

Definition sendCommand (this : FxRunner) (cmdName : string)
    (cmdArgs : list value) (author : value)
    : list effect * completion bool :=
  match fxChild this with
  | None => ([], Return false)
  | Some _ =>
      if is_empty cmdName then ([], Throw "cmdName is empty")
      else if negb (test_word cmdName) then ([], Throw "invalid cmdName string")
      else
        match sendCommand_args (sanitizeArgString cmdName) cmdArgs with
        | Throw message => ([], Throw message)
        | Return rawInput => sendRawCommand this rawInput author
        end
  end.

(** [data = {}]: the default stands in for an argument that is
    [undefined]. *)
Definition sendEvent_data (data : value) : value :=
  match data with
  | VUndefined => VObject []
  | _ => data
  end.

Definition sendEvent (this : FxRunner) (eventType : string) (data : value)
    : list effect * completion bool :=
  if is_empty eventType then ([], Throw "invalid eventType")
  else
    match
      sendCommand this "txaEvent" [VString eventType; sendEvent_data data]
        VUndefined
    with
    | (effects, Return success) => (effects, Return success)
    | (effects, Throw _) =>
        (effects ++
           [Console "verbose.error"
              ("Error writing firing server event " +:+ eventType);
            ConsoleDir],
         Return false)
    end.

End Commands.

(** ** The asynchronous operations

    An [async] method runs until its next [await]; what follows the [await]
    runs later, on the state the supervisor has by then.  Each method is
    given as its segments: [_begin] up to the first [await], [_resume]
    after it. *)

Definition with_spawnVariables (v : option SpawnVariables) (this : FxRunner) :=
  {| spawnVariables := v; fxChild := fxChild this;
     restartSpawnDelayOverride := restartSpawnDelayOverride this;
     history := history this; lastKillRequest := lastKillRequest this;
     fxServerHost := fxServerHost this; currentMutex := currentMutex this |}.

Definition with_fxChild (c : option ChildProcess) (this : FxRunner) :=
  {| spawnVariables := spawnVariables this; fxChild := c;
     restartSpawnDelayOverride := restartSpawnDelayOverride this;
     history := history this; lastKillRequest := lastKillRequest this;
     fxServerHost := fxServerHost this; currentMutex := currentMutex this |}.

Definition with_restartSpawnDelayOverride (ms : Z) (this : FxRunner) :=
  {| spawnVariables := spawnVariables this; fxChild := fxChild this;
     restartSpawnDelayOverride := ms;
     history := history this; lastKillRequest := lastKillRequest this;
     fxServerHost := fxServerHost this; currentMutex := currentMutex this |}.

Definition with_history (h : list HistoryEntry) (this : FxRunner) :=
  {| spawnVariables := spawnVariables this; fxChild := fxChild this;
     restartSpawnDelayOverride := restartSpawnDelayOverride this;
     history := h; lastKillRequest := lastKillRequest this;
     fxServerHost := fxServerHost this; currentMutex := currentMutex this |}.

Definition with_lastKillRequest (t : Z) (this : FxRunner) :=
  {| spawnVariables := spawnVariables this; fxChild := fxChild this;
     restartSpawnDelayOverride := restartSpawnDelayOverride this;
     history := history this; lastKillRequest := t;
     fxServerHost := fxServerHost this; currentMutex := currentMutex this |}.

Definition with_fxServerHost (h : option string) (this : FxRunner) :=
  {| spawnVariables := spawnVariables this; fxChild := fxChild this;
     restartSpawnDelayOverride := restartSpawnDelayOverride this;
     history := history this; lastKillRequest := lastKillRequest this;
     fxServerHost := h; currentMutex := currentMutex this |}.

Definition with_currentMutex (m : option string) (this : FxRunner) :=
  {| spawnVariables := spawnVariables this; fxChild := fxChild this;
     restartSpawnDelayOverride := restartSpawnDelayOverride this;
     history := history this; lastKillRequest := lastKillRequest this;
     fxServerHost := fxServerHost this; currentMutex := m |}.

(** What [validateFixServerConfig] resolves to. *)
Record ValidationResult := {
  errors : option string;
  warnings : option string;
  connectEndpoint : option string;
}.

(** An operation has returned (or thrown), or it is waiting at an
    [await]. *)
Inductive progress :=
  | Finished (result : completion (option string))
  | Suspended.

(** [message.includes(needle)] *)
Definition includes (needle message : string) : bool :=
  match String.index 0 needle message with
  | Some _ => true
  | None => false
  end.

Definition toUpperCase_char (c : ascii) : ascii :=
  let n := nat_of_ascii c in
  if ((97 <=? n) && (n <=? 122))%nat then ascii_of_nat (n - 32) else c.

Fixpoint toUpperCase (s : string) : string :=
  match s with
  | EmptyString => EmptyString
  | String c s' => String (toUpperCase_char c) (toUpperCase s')
  end.

(** The exit code as the [close] handler prints it; [null] when a signal
    ended the process. *)
Definition printableCode (code : option N) : string :=
  match code with
  | Some n =>
      "0x" +:+ toUpperCase
        (HexadecimalString.NilZero.string_of_uint (N.to_hex_uint n))
  | None => "NULL"
  end.

Section Operations.

Variable txConfig : TxConfig.
Variable stdin_write : string -> completion bool.

(** [txCore.translator.t(key, {servername, reason})] *)
Variable translator_t : string -> string -> string -> string.

(** The host data [setupVariables] reads: [txEnv.isWindows],
    [txEnv.fxServerPath], [path.resolve(txEnv.fxServerPath, '../../')] and
    the flattened [cmdArgs]. *)
Variable isWindows : bool.
Variable fxServerPath alpinePath : string.
Variable cmdArgs : list string.

Definition setupVariables (this : FxRunner) : FxRunner :=
  if isWindows then
    with_spawnVariables
      (Some {| command := fxServerPath +:+ "/FXServer.exe"; args := cmdArgs |})
      this
  else
    with_spawnVariables
      (Some {| command := alpinePath +:+ "/opt/cfx-server/ld-musl-x86_64.so.1";
               args :=
                 ["--library-path";
                  alpinePath +:+ "/usr/lib/v8/:" +:+ alpinePath +:+ "/lib/:"
                    +:+ alpinePath +:+ "/usr/lib/";
                  "--";
                  alpinePath +:+ "/opt/cfx-server/FXServer";
                  "+set"; "citizen_dir";
                  alpinePath +:+ "/opt/cfx-server/citizen/"] ++ cmdArgs |})
      this.

Definition isConfigured : bool :=
  truthy_string (server_dataPath txConfig)
  && truthy_string (server_cfgPath txConfig).

Definition shutdownNoticeDelayMs : Z := server_shutdownNoticeDelayMs txConfig.

(** *** spawnServer *)

Definition already_started : string := "The server is already started.".
Definition not_configured : string :=
  "Cannot start the server with missing configuration (serverDataPath || cfgPath).".
Definition errors_header : string :=
  "**Unable to start the server due to error(s) in your config file(s):**" +:+ nl.
Definition warnings_header : string :=
  "**Warning regarding your configuration file(s):**" +:+ nl.

(** [announce === 'true' || announce === true] *)
Definition announcing (announce : value) : bool :=
  match announce with
  | VString s => String.eqb s "true"
  | VBoolean b => b
  | _ => false
  end.

(** Up to [await validateFixServerConfig(..)].  [mutex] is what
    [genMutex()] draws.  The sanity check on [spawnVariables] cannot fail
    after [setupVariables], which assigns both of its fields. *)
Definition spawnServer_begin (this : FxRunner) (mutex : string)
    : FxRunner * list effect * progress :=
  match fxChild this with
  | Some _ =>
      (this, [Console "error" already_started],
       Finished (Return (Some already_started)))
  | None =>
      let this := setupVariables (with_currentMutex (Some mutex) this) in
      let logged :=
        [ResetToken;
         Console "verbose.log"
           ("Spawn Variables: " +:+
            join " " (from_option args [] (spawnVariables this)))] in
      if negb isConfigured then
        (this, logged ++ [Console "error" not_configured],
         Finished (Return (Some not_configured)))
      else (this, logged, Suspended)
  end.

(** From the validator's answer on.  [child] is the object
    [child_process.spawn] returns and [now] the reading of [now()] at the
    push.  The last component is the [historyIndex] the [close] and [exit]
    listeners capture, when they get attached. *)
Definition spawnServer_resume (this : FxRunner) (announce : value)
    (validation : completion ValidationResult) (child : ChildProcess)
    (now : Z)
    : FxRunner * list effect * completion (option string) * option nat :=
  match validation with
  | Throw message =>
      let errMsg := "server.cfg error: " +:+ message in
      (this,
       Console "error" errMsg ::
         (if includes "unreadable" message then
            [Console "error"
               "That is the file where you configure your server and start resources.";
             Console "error"
               "You likely moved/deleted your server files or copied the txData folder from another server.";
             Console "error"
               ("To fix this issue, open the txAdmin web interface then go to "
                  +:+ dq +:+ "Settings > FXServer" +:+ dq +:+ " and fix the "
                  +:+ dq +:+ "Server Data Folder" +:+ dq +:+ " and "
                  +:+ dq +:+ "CFG File Path" +:+ dq +:+ ".")]
          else []),
       Return (Some errMsg), None)
  | Return result =>
      if truthy_string (errors result) then
        let msg := errors_header +:+ from_option id EmptyString (errors result) in
        (this, [Console "error" msg], Return (Some msg), None)
      else
        let warned :=
          if truthy_string (warnings result) then
            [Console "warn"
               (warnings_header +:+ from_option id EmptyString (warnings result))]
          else [] in
        let this := with_fxServerHost (connectEndpoint result) this in
        match spawnVariables this with
        | None => (this, warned, Throw "TypeError", None)
        | Some vars =>
            let before :=
              warned ++
              [ResetMonitorStats; BufferPlayerlist (currentMutex this)] ++
              (if announcing announce then
                 [SendAnnouncement "success" "server_actions.spawning_discord"]
               else []) ++
              [Spawn vars (server_dataPath txConfig)] in
            let this := with_fxChild (Some child) this in
            match child_pid child with
            | None =>
                (this, before,
                 Throw ("Executon of " +:+ dq +:+ command vars +:+ dq +:+ " failed."),
                 None)
            | Some p =>
                let pid := Z_toString (Z.of_N p) in
                let historyIndex := length (history this) in
                (with_history
                   (history this ++
                      [{| pid := pid;
                          timestamps := {| start := At now; kill := Absent;
                                           exit := Absent; close := Absent |} |}])
                   this,
                 before ++
                 [Console "ok" (">> [" +:+ pid +:+ "] FXServer Started!");
                  LogFxserverBoot pid; PushRefresh],
                 Return None, Some historyIndex)
            end
        end
  end.

(** *** killServer *)

Definition restart_in_progress : string := "Restart already in progress.".
Definition could_not_kill : string :=
  "Couldn't kill the server. Perhaps What Is Dead May Never Die.".

Definition cleanup (this : FxRunner) (reasonString : string) : list effect :=
  [ResourcesHandleServerStop;
   PlayerlistHandleServerStop (currentMutex this);
   LogServerClose reasonString].

(** [reason ?? 'no reason provided'] *)
Definition reasonString_of (reason : option string) : string :=
  from_option id "no reason provided" reason.

Definition messageType (isRestarting : bool) : string :=
  if isRestarting then "restarting" else "stopping".
Definition messageColor (isRestarting : bool) : string :=
  if isRestarting then "warning" else "danger".

(** The data of the [serverShuttingDown] event. *)
Definition shuttingDown (reason author : option string) (isRestarting : bool)
    : value :=
  VObject
    [("delay", JNum shutdownNoticeDelayMs);
     ("author", JStr (from_option id "txAdmin" author));
     ("message",
      JStr (translator_t ("server_actions." +:+ messageType isRestarting)
              (general_serverName txConfig) (reasonString_of reason)))].

(** Up to [await sleep(Math.max(.., 250))]; [msTimestamp] is the reading
    of [Date.now()]. *)
Definition killServer_begin (this : FxRunner) (msTimestamp : Z)
    (reason author : option string) (isRestarting : bool)
    : FxRunner * list effect * progress :=
  if msTimestamp - lastKillRequest this <? shutdownNoticeDelayMs then
    (this, [], Finished (Return (Some restart_in_progress)))
  else
    let this := with_lastKillRequest msTimestamp this in
    match
      sendEvent stdin_write this "serverShuttingDown"
        (shuttingDown reason author isRestarting)
    with
    | (sent, Throw _) =>
        (with_fxChild None this,
         sent ++ [Console "error" could_not_kill; ConsoleDir],
         Finished (Return (Some could_not_kill)))
    | (sent, Return _) =>
        (this,
         sent ++
         [SendAnnouncement (messageColor isRestarting)
            ("server_actions." +:+ messageType isRestarting +:+ "_discord");
          Sleep (Z.max shutdownNoticeDelayMs 250)],
         Suspended)
    end.

(** After the sleep; [now] is the reading of [now()] for the stamp.
    Without a last record the assignment to its [timestamps.kill] raises a
    [TypeError], which the [catch] turns into the failure message. *)
Definition killServer_resume (this : FxRunner) (now : Z)
    (reasonString : string) : FxRunner * list effect * option string :=
  match fxChild this with
  | Some child =>
      let this := with_fxChild None this in
      match last (history this) with
      | None =>
          (with_fxChild None this,
           [KillSignal child; Console "error" could_not_kill; ConsoleDir],
           Some could_not_kill)
      | Some _ =>
          let this :=
            with_history
              (alter (set_kill now) (length (history this) - 1)%nat (history this))
              this in
          (this, KillSignal child :: cleanup this reasonString, None)
      end
  | None => (this, cleanup this reasonString, None)
  end.

(** *** restartServer *)

(** The delay between the kill and the spawn, with the warning that goes
    with an override. *)
Definition restartServer_delay (this : FxRunner) : list effect * Z :=
  if negb (restartSpawnDelayOverride this =? 0) then
    ([Console "warn"
        ("Restarting the fxserver with delay override "
           +:+ Z_toString (restartSpawnDelayOverride this))],
     restartSpawnDelayOverride this)
  else ([], server_restartSpawnDelayMs txConfig).

End Operations.

(** ** Stream noise *)

(** The module-level variable [chanEventBlackHole] reads,
    [lastBlackHoleSpewTime]; the function assigns none. *)
Record BlackHole := {
  lastBlackHoleSpewTime : Z;
}.

Definition blackHoleSpillMaxInterval : Z := 5000.

Definition blackHole_loaded : BlackHole :=
  {| lastBlackHoleSpewTime := 0 |}.

(** [currentTime] is the reading of [Date.now()].  The file is an ECMAScript
    module, whose code is strict: the assignment to [lastLogTime], a name no
    declaration introduces, raises a [ReferenceError] after the two lines are
    logged, and creates no variable. *)
Definition chanEventBlackHole (m : BlackHole) (currentTime : Z)
    : BlackHole * list effect * completion unit :=
  if blackHoleSpillMaxInterval <? currentTime - lastBlackHoleSpewTime m then
    (m, [Console "verbose.error" "StdIo unexpected event:"; ConsoleDir],
     Throw "lastLogTime is not defined")
  else (m, [], Return tt).

(** ** The supervisor among its events *)

Inductive operation := SpawnServer | KillServer | RestartServer.

(** An operation waiting at an [await], with the locals it still needs.
    [caller] is the operation whose result the continuation settles:
    [restartServer] awaits [killServer] and returns what [spawnServer]
    returns. *)
Inductive task :=
  | KillServerSleeping (reasonString : string) (caller : operation)
  | RestartServerSleeping
  | SpawnServerValidating (announce : value) (caller : operation).

Record System := {
  runner : FxRunner;
  tasks : list task;
  listeners : list nat;
  blackHole : BlackHole;
}.

Definition loaded : System :=
  {| runner := constructed; tasks := []; listeners := [];
     blackHole := blackHole_loaded |}.

Inductive event :=
  | CallSpawnServer (announce : value) (mutex : string)
  | CallKillServer (msTimestamp : Z) (reason author : option string)
      (isRestarting : bool)
  | CallRestartServer (msTimestamp : Z) (reason author : option string)
  | ShutdownNoticeElapsed (i : nat) (now : Z)
  | RestartDelayElapsed (i : nat) (mutex : string)
  | ValidatorSettled (i : nat) (validation : completion ValidationResult)
      (child : ChildProcess) (now : Z)
  | ChildClose (historyIndex : nat) (code : option N) (now : Z)
  | ChildExit (historyIndex : nat) (now : Z)
  | ChildDisconnect (historyIndex : nat)
  | ChildError (historyIndex : nat)
  | StreamNoise (currentTime : Z)
  | SetRestartSpawnDelayOverride (ms : Z).

Record outcome := {
  next : System;
  effects : list effect;
  settled : list (operation * completion (option string));
}.

Definition with_runner (r : FxRunner) (s : System) : System :=
  {| runner := r; tasks := tasks s; listeners := listeners s;
     blackHole := blackHole s |}.

Definition with_tasks (ts : list task) (s : System) : System :=
  {| runner := runner s; tasks := ts; listeners := listeners s;
     blackHole := blackHole s |}.

Definition with_listeners (ls : list nat) (s : System) : System :=
  {| runner := runner s; tasks := tasks s; listeners := ls;
     blackHole := blackHole s |}.

Definition with_blackHole (m : BlackHole) (s : System) : System :=
  {| runner := runner s; tasks := tasks s; listeners := listeners s;
     blackHole := m |}.

Definition unchanged (s : System) : outcome :=
  {| next := s; effects := []; settled := [] |}.

(** Whether a listener with this captured index is attached. *)
Definition listening (s : System) (historyIndex : nat) : bool :=
  bool_decide (historyIndex ∈ listeners s).

(** The [exit] handler's test
    [timestamps.exit - timestamps.start <= 5]. *)
Definition exited_early (e : HistoryEntry) : bool :=
  match exit (timestamps e), start (timestamps e) with
  | At x, At s => x - s <=? 5
  | At x, Absent => x <=? 5
  | Absent, At s => 0 - s <=? 5
  | Absent, Absent => true
  end.

Section Supervisor.

Variable txConfig : TxConfig.
Variable stdin_write : string -> completion bool.
Variable translator_t : string -> string -> string -> string.
Variable isWindows : bool.
Variable fxServerPath alpinePath : string.
Variable cmdArgs : list string.

Local Abbreviation spawn_begin :=
  (spawnServer_begin txConfig isWindows fxServerPath alpinePath cmdArgs).
Local Abbreviation spawn_resume := (spawnServer_resume txConfig).
Local Abbreviation kill_begin := (killServer_begin txConfig stdin_write translator_t).
Local Abbreviation kill_resume := killServer_resume.

(** [spawnServer] entered for [caller]. *)
Definition enter_spawnServer (s : System) (announce : value)
    (mutex : string) (caller : operation) : outcome :=
  match spawn_begin (runner s) mutex with
  | (r, effs, Finished result) =>
      {| next := with_runner r s; effects := effs;
         settled := [(caller, result)] |}
  | (r, effs, Suspended) =>
      {| next :=
           with_tasks (tasks s ++ [SpawnServerValidating announce caller])
             (with_runner r s);
         effects := effs; settled := [] |}
  end.

(** [killServer] entered for [caller]. *)
Definition enter_killServer (s : System) (msTimestamp : Z)
    (reason author : option string) (isRestarting : bool)
    (caller : operation) : outcome :=
  match kill_begin (runner s) msTimestamp reason author isRestarting with
  | (r, effs, Finished result) =>
      {| next := with_runner r s; effects := effs;
         settled := [(caller, result)] |}
  | (r, effs, Suspended) =>
      {| next :=
           with_tasks
             (tasks s ++ [KillServerSleeping (reasonString_of reason) caller])
             (with_runner r s);
         effects := effs; settled := [] |}
  end.

(** The sleep of a [killServer] is over.  Inside [restartServer] a
    truthy [killError] is returned; else the restart delay is read and
    slept. *)
Definition finish_killServer (s : System) (now : Z)
    (reasonString : string) (caller : operation) : outcome :=
  match kill_resume (runner s) now reasonString with
  | (r, effs, killError) =>
      match caller with
      | RestartServer =>
          if truthy_string killError then
            {| next := with_runner r s; effects := effs;
               settled := [(RestartServer, Return killError)] |}
          else
            let '(warned, ms) := restartServer_delay txConfig r in
            {| next :=
                 with_tasks (tasks s ++ [RestartServerSleeping])
                   (with_runner r s);
               effects := effs ++ warned ++ [Sleep ms]; settled := [] |}
      | _ =>
          {| next := with_runner r s; effects := effs;
             settled := [(caller, Return killError)] |}
      end
  end.

(** The validator has answered a waiting [spawnServer]. *)
Definition finish_spawnServer (s : System) (announce : value)
    (caller : operation) (validation : completion ValidationResult)
    (child : ChildProcess) (now : Z) : outcome :=
  match spawn_resume (runner s) announce validation child now with
  | (r, effs, result, attached) =>
      {| next :=
           with_listeners
             (listeners s ++ from_option (fun i => [i]) [] attached)
             (with_runner r s);
         effects := effs; settled := [(caller, result)] |}
  end.

(** The [close] listener of the spawn that captured [historyIndex]. *)
Definition on_close (s : System) (historyIndex : nat) (code : option N)
    (now : Z) : outcome :=
  match history (runner s) !! historyIndex with
  | None => unchanged s
  | Some e =>
      {| next :=
           with_runner
             (with_history
                (alter (set_close now) historyIndex (history (runner s)))
                (runner s)) s;
         effects :=
           [Console "warn"
              (">> [" +:+ pid e +:+ "] FXServer Closed ("
                 +:+ printableCode code +:+ ").");
            PushRefresh];
         settled := [] |}
  end.

(** The [exit] listener of the spawn that captured [historyIndex]. *)
Definition on_exit (s : System) (historyIndex : nat) (now : Z) : outcome :=
  match history (runner s) !! historyIndex with
  | None => unchanged s
  | Some e =>
      {| next :=
           with_runner
             (with_history
                (alter (set_exit now) historyIndex (history (runner s)))
                (runner s)) s;
         effects :=
           [ProcessStdoutWrite nl;
            Console "warn" (">> [" +:+ pid e +:+ "] FXServer Exited.");
            PushRefresh] ++
           (if exited_early (set_exit now e) then
              [SetTimeout 500
                 "FXServer didn't start. This is not an issue with txAdmin."]
            else []);
         settled := [] |}
  end.

(** One turn of the event loop.  An event that finds nothing waiting for
    it (no task at [i] of its kind, no listener for [historyIndex])
    changes nothing. *)
Definition step (s : System) (e : event) : outcome :=
  match e with
  | CallSpawnServer announce mutex =>
      enter_spawnServer s announce mutex SpawnServer
  | CallKillServer msTimestamp reason author isRestarting =>
      enter_killServer s msTimestamp reason author isRestarting KillServer
  | CallRestartServer msTimestamp reason author =>
      enter_killServer s msTimestamp reason author true RestartServer
  | ShutdownNoticeElapsed i now =>
      match tasks s !! i with
      | Some (KillServerSleeping reasonString caller) =>
          finish_killServer (with_tasks (delete i (tasks s)) s) now
            reasonString caller
      | _ => unchanged s
      end
  | RestartDelayElapsed i mutex =>
      match tasks s !! i with
      | Some RestartServerSleeping =>
          enter_spawnServer (with_tasks (delete i (tasks s)) s) VUndefined
            mutex RestartServer
      | _ => unchanged s
      end
  | ValidatorSettled i validation child now =>
      match tasks s !! i with
      | Some (SpawnServerValidating announce caller) =>
          finish_spawnServer (with_tasks (delete i (tasks s)) s) announce
            caller validation child now
      | _ => unchanged s
      end
  | ChildClose historyIndex code now =>
      if listening s historyIndex then on_close s historyIndex code now
      else unchanged s
  | ChildExit historyIndex now =>
      if listening s historyIndex then on_exit s historyIndex now
      else unchanged s
  | ChildDisconnect historyIndex =>
      if listening s historyIndex then
        match history (runner s) !! historyIndex with
        | Some e =>
            {| next := s;
               effects :=
                 [Console "warn" (">> [" +:+ pid e +:+ "] FXServer Disconnected.")];
               settled := [] |}
        | None => unchanged s
        end
      else unchanged s
  | ChildError historyIndex =>
      if listening s historyIndex then
        match history (runner s) !! historyIndex with
        | Some e =>
            {| next := s;
               effects :=
                 [Console "warn" (">> [" +:+ pid e +:+ "] FXServer Errored:");
                  ConsoleDir];
               settled := [] |}
        | None => unchanged s
        end
      else unchanged s
  | StreamNoise currentTime =>
      match chanEventBlackHole (blackHole s) currentTime with
      | (m, effs, Return _) =>
          {| next := with_blackHole m s; effects := effs; settled := [] |}
      | (m, effs, Throw message) =>
          {| next := with_blackHole m s; effects := effs ++ [Uncaught message];
             settled := [] |}
      end
  | SetRestartSpawnDelayOverride ms =>
      {| next := with_runner (with_restartSpawnDelayOverride ms (runner s)) s;
         effects := []; settled := [] |}
  end.

(** The readings of [now()] an event brings all satisfy [T]. *)
Definition readings (T : Z -> Prop) (e : event) : Prop :=
  match e with
  | ShutdownNoticeElapsed _ now
  | ValidatorSettled _ _ _ now
  | ChildClose _ _ now
  | ChildExit _ now => T now
  | _ => True
  end.

(** Modelled from the spec: [now()] comes from [@lib/misc], which is not
    part of this file; it gives the current time, in seconds since the Unix
    epoch, so every reading is positive. *)
Definition clock_ok (e : event) : Prop := readings (fun now => 0 < now) e.

(** The events one after the other, with all they caused. *)
Fixpoint run (s : System) (es : list event) : outcome :=
  match es with
  | [] => unchanged s
  | e :: es' =>
      let o := step s e in
      let o' := run (next o) es' in
      {| next := next o'; effects := effects o ++ effects o';
         settled := settled o ++ settled o' |}
  end.

Inductive reachable : System -> Prop :=
  | reachable_loaded : reachable loaded
  | reachable_step s e :
      reachable s -> clock_ok e -> reachable (next (step s e)).

(** *** Kill requests

    A call of [killServer], directly or from [restartServer], is a kill
    request made at its reading of [Date.now()]. *)
Definition kill_request (e : event) : option Z :=
  match e with
  | CallKillServer msTimestamp _ _ _ => Some msTimestamp
  | CallRestartServer msTimestamp _ _ => Some msTimestamp
  | _ => None
  end.

(** The request came back at once with the rejection message. *)
Definition rejected (o : outcome) : bool :=
  match settled o with
  | [(_, Return (Some message))] => String.eqb message restart_in_progress
  | _ => false
  end.

(** The time of the latest kill request that was not rejected, along the
    events [es] from [s]; [previous] is the one known before them. *)
Fixpoint previous_accepted (s : System) (es : list event)
    (previous : option Z) : option Z :=
  match es with
  | [] => previous
  | e :: es' =>
      let o := step s e in
      previous_accepted (next o) es'
        match kill_request e with
        | Some msTimestamp => if rejected o then previous else Some msTimestamp
        | None => previous
        end
  end.

End Supervisor.

(** ** The command line, in the words of the specification *)

Module Encoder.

(** [JSON.stringify] has a text for the tree. *)
Definition serializes (j : json) : bool :=
  match JSON_stringify j with
  | Return _ => true
  | Throw _ => false
  end.

Definition json_text (j : json) : string :=
  match JSON_stringify j with
  | Return text => text
  | Throw _ => EmptyString
  end.

(** The three kinds of argument the encoder accepts: a string, a structured
    object, which is an object that has a JSON text, and an integer. *)
Definition accepted (v : value) : bool :=
  match v with
  | VString _ => true
  | VArray items => serializes (JArr items)
  | VObject fields => serializes (JObj fields)
  | VExotic (Some j) => serializes j
  | VExotic None => false
  | VNumber n => Number_isInteger n
  | VUndefined | VNull | VBoolean _ => false
  end.

(** The integers among the arguments are safe integers, of magnitude below
    [2^53]. *)
Definition safe (v : value) : bool :=
  match v with
  | VNumber (Finite num den) => Z.abs (num / Z.pos den) <? 2 ^ 53
  | _ => true
  end.

(** Every double quote becomes U+FF02 and every newline a space. *)
Definition escape_char (c : ascii) : string :=
  if Ascii.eqb c quote_char then fullwidth_quote
  else if Ascii.eqb c newline_char then " "
  else String c EmptyString.

Fixpoint escape (s : string) : string :=
  match s with
  | EmptyString => EmptyString
  | String c s' => escape_char c +:+ escape s'
  end.

Definition quoted (s : string) : string := dq +:+ escape s +:+ dq.

(** The decimal numeral of an integral number. *)
Definition decimal (n : number) : string :=
  match n with
  | Finite num den => Z_toString (num / Z.pos den)
  | _ => EmptyString
  end.

(** What one argument contributes after its space, with [numeral] for the
    text of an integer. *)
Definition encode_argument_as (numeral : number -> string) (v : value)
    : string :=
  match v with
  | VString s =>
      if is_empty s then dq +:+ dq
      else if test_word s then s
      else quoted s
  | VArray items => quoted (json_text (JArr items))
  | VObject fields => quoted (json_text (JObj fields))
  | VExotic (Some j) => quoted (json_text j)
  | VNumber n => numeral n
  | _ => EmptyString
  end.

Fixpoint encode_arguments_as (numeral : number -> string) (args : list value)
    : string :=
  match args with
  | [] => EmptyString
  | v :: rest =>
      " " +:+ encode_argument_as numeral v +:+ encode_arguments_as numeral rest
  end.

Definition encode_command_as (numeral : number -> string) (name : string)
    (args : list value) : string :=
  name +:+ encode_arguments_as numeral args.

(** The line with every integer as its decimal numeral. *)
Definition encode_argument : value -> string := encode_argument_as decimal.
Definition encode_arguments : list value -> string :=
  encode_arguments_as decimal.
Definition encode_command : string -> list value -> string :=
  encode_command_as decimal.

End Encoder.

(** ** Lifecycle records, in the words of the specification *)

(** A field is set when it holds a reading of the clock, absent while it
    holds [false]; the code tells them apart by truthiness. *)
Definition is_set (x : stamp) : Prop := truthy x = true.
Definition is_absent (x : stamp) : Prop := truthy x = false.

(** A record as it is created: [start] set, the other fields absent. *)
Definition fresh (e : HistoryEntry) : Prop :=
  is_set (start (timestamps e))
  /\ kill (timestamps e) = Absent
  /\ exit (timestamps e) = Absent
  /\ close (timestamps e) = Absent.

Definition started (e : HistoryEntry) : Prop :=
  is_set (start (timestamps e)).

(** What may become of a record: its [pid] and [start] stay, and a field
    that is set stays set. *)
Definition evolves (e e' : HistoryEntry) : Prop :=
  pid e' = pid e
  /\ start (timestamps e') = start (timestamps e)
  /\ (is_set (kill (timestamps e)) -> is_set (kill (timestamps e')))
  /\ (is_set (exit (timestamps e)) -> is_set (exit (timestamps e')))
  /\ (is_set (close (timestamps e)) -> is_set (close (timestamps e'))).

(** [h'] is [h] with its records evolved in place, followed by new records
    that satisfy [P]. *)
Definition grows (P : HistoryEntry -> Prop) (h h' : list HistoryEntry) : Prop :=
  exists kept added,
    h' = kept ++ added /\ Forall2 evolves h kept /\ Forall P added.

(** The six labels of a history whose records all have [start] set. *)
Definition live_label (status : string) : Prop :=
  status = "not started" \/ status = "spawned" \/ status = "killed"
  \/ status = "closing" \/ status = "closed"
  \/ exists pending, status = "kill pending: " +:+ pending.

Definition is_sleep (e : effect) : bool :=
  match e with Sleep _ => true | _ => false end.

Definition is_override (e : event) : bool :=
  match e with SetRestartSpawnDelayOverride _ => true | _ => false end.

Definition raises {A} (r : list effect * completion A) : Prop :=
  exists message, r.2 = Throw message.

(** ** A concrete supervisor, for examples *)

Module Example.

Definition config : TxConfig :=
  {| server_dataPath := Some "/srv/data";
     server_cfgPath := Some "server.cfg";
     server_shutdownNoticeDelayMs := 5000;
     server_restartSpawnDelayMs := 750;
     general_serverName := "srv" |}.

(** The same with no shutdown notice delay. *)
Definition hasty : TxConfig :=
  {| server_dataPath := Some "/srv/data";
     server_cfgPath := Some "server.cfg";
     server_shutdownNoticeDelayMs := 0;
     server_restartSpawnDelayMs := 750;
     general_serverName := "srv" |}.

Definition write (data : string) : completion bool := Return true.
Definition t (key servername reason : string) : string := key.

Definition child : ChildProcess := {| child_pid := Some 4242%N |}.
Definition stillborn : ChildProcess := {| child_pid := None |}.

Definition valid : completion ValidationResult :=
  Return {| errors := None; warnings := None;
            connectEndpoint := Some "127.0.0.1:30120" |}.

Definition step (cfg : TxConfig) :=
  step cfg write t false "/fx/alpine/opt/cfx-server" "/fx/alpine" [].
Definition run (cfg : TxConfig) :=
  run cfg write t false "/fx/alpine/opt/cfx-server" "/fx/alpine" [].

(** A server spawned at second 1700000000. *)
Definition boot : list event :=
  [CallSpawnServer (VBoolean true) "abcde";
   ValidatorSettled 0 valid child 1700000000].

Definition running : FxRunner := runner (next (run config loaded boot)).

(** A translator that shows its three arguments. *)
Definition t_all (key servername reason : string) : string :=
  key +:+ "/" +:+ servername +:+ "/" +:+ reason.

(** A spawn for which the operating system started no process. *)
Definition failed_spawn (mutex : string) (now : Z) : list event :=
  [CallSpawnServer (VBoolean true) mutex;
   ValidatorSettled 0 valid stillborn now].

(** The line of the shutdown notice for a stop by [admin] for
    [maintenance], under [config] and [t_all]. *)
Definition shutdown_notice : string :=
  "txaEvent serverShuttingDown " +:+ dq +:+ "{"
    +:+ fullwidth_quote +:+ "delay" +:+ fullwidth_quote +:+ ":5000,"
    +:+ fullwidth_quote +:+ "author" +:+ fullwidth_quote +:+ ":"
    +:+ fullwidth_quote +:+ "admin" +:+ fullwidth_quote +:+ ","
    +:+ fullwidth_quote +:+ "message" +:+ fullwidth_quote +:+ ":"
    +:+ fullwidth_quote +:+ "server_actions.stopping/srv/maintenance"
    +:+ fullwidth_quote +:+ "}" +:+ dq.

(** Two restarts after the override was set to 5000 once. *)
Definition two_restarts : list event :=
  boot ++
  [SetRestartSpawnDelayOverride 5000;
   CallRestartServer 1700000100000 None None;
   ShutdownNoticeElapsed 0 1700000101;
   RestartDelayElapsed 0 "fghij";
   ValidatorSettled 0 valid child 1700000107;
   CallRestartServer 1700000200000 None None;
   ShutdownNoticeElapsed 0 1700000201].

End Example.

(** ** The other operations of the supervisor *)

(** [typeof author] is ['undefined'] or ['string']. *)
Definition is_author (author : value) : bool :=
  match author with
  | VUndefined | VString _ => true
  | _ => false
  end.

(** The string holds no occurrence of [c]. *)
Definition has_no (c : ascii) (s : string) : bool :=
  all_chars (fun a => negb (Ascii.eqb a c)) s.

(** [getUptime()]; [now] is the reading of [now()].  A [start] that holds
    [false] counts as 0 in the subtraction. *)
Definition getUptime (history : list HistoryEntry) (now : Z) : Z :=
  match last history with
  | None => 0
  | Some curr =>
      now - match start (timestamps curr) with
            | At t => t
            | Absent => 0
            end
  end.

(** The events a child raises by itself: its listeners and the stream
    noise. *)
Definition child_event (e : event) : bool :=
  match e with
  | ChildClose _ _ _ | ChildExit _ _ | ChildDisconnect _ | ChildError _
  | StreamNoise _ => true
  | _ => false
  end.

(** Each time is at least [d] after the one before it, the first after
    [previous]. *)
Fixpoint spaced (d previous : Z) (times : list Z) : Prop :=
  match times with
  | [] => True
  | t :: rest => d <= t - previous /\ spaced d t rest
  end.

Definition early_exit_warning : effect :=
  SetTimeout 500 "FXServer didn't start. This is not an issue with txAdmin.".

Section Convars.

Variable stdin_write : string -> completion bool.

(** The [for] loop of [updateMutableConvars] over the triples that
    [getMutableConvars(false)] returned; an exception of [sendCommand] leaves
    the loop. *)
Fixpoint updateMutableConvars_loop (this : FxRunner)
    (convarList : list (string * value * value))
    : list effect * completion unit :=
  match convarList with
  | [] => ([], Return tt)
  | (set, convar, val) :: rest =>
      match sendCommand stdin_write this set [convar; val] VUndefined with
      | (sent, Throw message) => (sent, Throw message)
      | (sent, Return _) =>
          let '(more, result) := updateMutableConvars_loop this rest in
          (sent ++ more, result)
      end
  end.

Definition updating_convars : effect :=
  Console "log" "Updating FXServer ConVars.".

Definition convars_failed : list effect :=
  [Console "verbose.error" "Error updating FXServer ConVars"; ConsoleDir].

(** [updateMutableConvars()], on the list [getMutableConvars(false)]
    returned. *)
Definition updateMutableConvars (this : FxRunner)
    (convarList : list (string * value * value)) : list effect * bool :=
  match updateMutableConvars_loop this convarList with
  | (sent, Throw _) => (updating_convars :: sent ++ convars_failed, false)
  | (sent, Return _) =>
      match sendEvent stdin_write this "configChanged" (VObject []) with
      | (fired, Return success) => (updating_convars :: sent ++ fired, success)
      | (fired, Throw _) =>
          (updating_convars :: sent ++ fired ++ convars_failed, false)
      end
  end.

(** [handleConfigUpdate(updatedConfigs)] looks at neither its argument nor
    the result. *)
Definition handleConfigUpdate (this : FxRunner) (updatedConfigs : list string)
    (convarList : list (string * value * value)) : list effect :=
  (updateMutableConvars this convarList).1.

(** What one write of [command] by the system does, as [sendRawCommand]
    does it. *)
Definition written (this : FxRunner) (command : string) : list effect :=
  (sendRawCommand stdin_write this command VUndefined).1.

(** A triple [sendCommand] takes: a name of word characters and two
    accepted arguments. *)
Definition valid_convar (c : string * value * value) : bool :=
  test_word c.1.1 && Encoder.accepted c.1.2 && Encoder.accepted c.2.

Definition convar_line (c : string * value * value) : string :=
  Encoder.encode_command_as Number_toString c.1.1 [c.1.2; c.2].

End Convars.

Section AutoStart.

Variable txConfig : TxConfig.
Variable stdin_write : string -> completion bool.
Variable translator_t : string -> string -> string -> string.
Variable isWindows : bool.
Variable fxServerPath alpinePath : string.
Variable cmdArgs : list string.

(** [signalStartReady()]; [autoStart] is [txConfig.server.autoStart],
    [hasAdmins] what [txCore.adminStore.hasAdmins()] answers and [mutex] what
    [genMutex()] draws if the spawn is entered. *)
Definition signalStartReady (s : System) (autoStart hasAdmins : bool)
    (mutex : string) : outcome :=
  if negb autoStart then unchanged s
  else if negb (isConfigured txConfig) then
    {| next := s;
       effects :=
         [Console "warn"
            "Please open txAdmin on the browser to configure your server."];
       settled := [] |}
  else if negb hasAdmins then
    {| next := s;
       effects :=
         [Console "warn"
            "The server will not auto start because there are no admins configured."];
       settled := [] |}
  else
    enter_spawnServer txConfig isWindows fxServerPath alpinePath cmdArgs s
      (VBoolean true) mutex SpawnServer.

(** The times of the kill requests that were not rejected, along the events
    [es] from [s], in their order. *)
Fixpoint accepted_times (s : System) (es : list event) : list Z :=
  match es with
  | [] => []
  | e :: es' =>
      let o :=
        step txConfig stdin_write translator_t isWindows fxServerPath
          alpinePath cmdArgs s e in
      match kill_request e with
      | Some msTimestamp =>
          if rejected o then accepted_times (next o) es'
          else msTimestamp :: accepted_times (next o) es'
      | None => accepted_times (next o) es'
      end
  end.

End AutoStart.

(** * Properties *)

(** ** Strings *)

Lemma append_cons (x : ascii) (a b : string) :
  String x a +:+ b = String x (a +:+ b).
Proof. reflexivity. Qed.

Lemma append_nil (b : string) : EmptyString +:+ b = b.
Proof. reflexivity. Qed.

Lemma append_assoc (a b c : string) : (a +:+ b) +:+ c = a +:+ (b +:+ c).
Proof.
  induction a as [|x a IH]; [reflexivity|].
  now rewrite !append_cons, IH.
Qed.

Lemma append_empty_r (a : string) : a +:+ EmptyString = a.
Proof.
  induction a as [|x a IH]; [reflexivity|].
  now rewrite append_cons, IH.
Qed.

Lemma replaceAll_append c by_ x y :
  replaceAll c by_ (x +:+ y) = replaceAll c by_ x +:+ replaceAll c by_ y.
Proof.
  induction x as [|a x IH]; [reflexivity|].
  rewrite append_cons. cbn [replaceAll].
  destruct (Ascii.eqb a c); rewrite IH.
  - now rewrite append_assoc.
  - now rewrite append_cons.
Qed.

(** The two passes of [sanitizeArgString] make the one substitution the
    specification describes: the bytes put in for a quote hold no newline. *)
Lemma sanitizeArgString_escape (x : string) :
  sanitizeArgString x = Encoder.escape x.
Proof.
  unfold sanitizeArgString.
  induction x as [|a x IH]; [reflexivity|].
  cbn [replaceAll Encoder.escape]. unfold Encoder.escape_char.
  destruct (Ascii.eqb a quote_char) eqn:Hq.
  - rewrite replaceAll_append, IH. reflexivity.
  - cbn [replaceAll]. destruct (Ascii.eqb a newline_char); now rewrite IH.
Qed.

Lemma word_char_plain (c : ascii) :
  is_word_char c = true -> Encoder.escape_char c = String c EmptyString.
Proof.
  destruct c as [[] [] [] [] [] [] [] []]; vm_compute; congruence.
Qed.

Lemma all_word_escape (s : string) :
  all_chars is_word_char s = true -> Encoder.escape s = s.
Proof.
  induction s as [|c s IH]; [reflexivity|].
  cbn [all_chars Encoder.escape].
  intros [Hc Hs]%andb_prop.
  now rewrite (word_char_plain c Hc), IH.
Qed.

(** A name of word characters goes through [sanitizeArgString] as it is. *)
Lemma sanitizeArgString_word (s : string) :
  test_word s = true -> sanitizeArgString s = s.
Proof.
  intros H. rewrite sanitizeArgString_escape. apply all_word_escape.
  destruct s; [discriminate|exact H].
Qed.

(** ** The command encoder *)

Lemma stringified_accepted (j : json) :
  Encoder.serializes j = true ->
  stringified j = Return (Encoder.quoted (Encoder.json_text j)).
Proof.
  unfold stringified, Encoder.serializes, Encoder.json_text, Encoder.quoted.
  destruct (JSON_stringify j); [intros _|discriminate].
  cbn [bind]. now rewrite sanitizeArgString_escape.
Qed.

Lemma stringified_refused (j : json) :
  Encoder.serializes j = false -> exists message, stringified j = Throw message.
Proof.
  unfold stringified, Encoder.serializes.
  destruct (JSON_stringify j); [discriminate|]. cbn [bind]. eauto.
Qed.

Lemma sendCommand_arg_accepted (v : value) :
  Encoder.accepted v = true ->
  sendCommand_arg v = Return (Encoder.encode_argument_as Number_toString v).
Proof.
  destruct v as [| | b | n | s | items | fields | [j|]]; cbn; try discriminate;
    try apply stringified_accepted.
  - now intros ->.
  - intros _. destruct (is_empty s); [|destruct (test_word s)];
      unfold Encoder.quoted; now rewrite ?sanitizeArgString_escape.
Qed.

Lemma sendCommand_arg_refused (v : value) :
  Encoder.accepted v = false -> exists message, sendCommand_arg v = Throw message.
Proof.
  destruct v as [| | b | n | s | items | fields | [j|]]; cbn; try discriminate;
    eauto using stringified_refused.
  intros ->. eauto.
Qed.

Lemma sendCommand_args_accepted (args : list value) : forall rawInput,
  Forall (fun v => Encoder.accepted v = true) args ->
  sendCommand_args rawInput args
  = Return (rawInput +:+ Encoder.encode_arguments_as Number_toString args).
Proof.
  induction args as [|v rest IH]; intros rawInput Hall.
  - cbn. now rewrite append_empty_r.
  - inversion Hall as [|? ? Hv Hrest]; subst.
    cbn [sendCommand_args Encoder.encode_arguments_as].
    rewrite (sendCommand_arg_accepted _ Hv). cbn [bind].
    rewrite (IH _ Hrest). now rewrite !append_assoc.
Qed.

Lemma sendCommand_args_refused (args : list value) : forall rawInput,
  Exists (fun v => Encoder.accepted v = false) args ->
  exists message, sendCommand_args rawInput args = Throw message.
Proof.
  induction args as [|v rest IH]; intros rawInput Hex.
  - inversion Hex.
  - cbn [sendCommand_args].
    destruct (Encoder.accepted v) eqn:Hv.
    + rewrite (sendCommand_arg_accepted _ Hv). cbn [bind].
      apply IH. inversion Hex; subst; [congruence|assumption].
    + destruct (sendCommand_arg_refused _ Hv) as [message ->]. cbn [bind].
      eauto.
Qed.

(** Below [2^53] the text of an integer is its decimal numeral. *)
Lemma integral_toString_safe (z : Z) :
  (Z.abs z <? 2 ^ 53) = true -> integral_toString z = Z_toString z.
Proof.
  unfold integral_toString. now intros ->.
Qed.

(** Every integer below [2^53] in magnitude is a double. *)
Lemma safe_is_double (z : Z) :
  (Z.abs z <? 2 ^ 53) = true -> is_double z = true.
Proof.
  unfold is_double. now intros ->.
Qed.

(** From [2^53] on the text holds the shortest digits that read as the
    same double, in exponent notation from [10^21] on. *)
Lemma Number_toString_examples :
  map Number_toString
    [int 123; int (-9007199254740991); int (2 ^ 53); int (2 ^ 64);
     int (10 ^ 21); int (- 2 ^ 70); int (2 ^ 100)]
  = ["123"; "-9007199254740991"; "9007199254740992"; "18446744073709552000";
     "1e+21"; "-1.1805916207174113e+21"; "1.2676506002282294e+30"].
Proof.
  vm_compute. reflexivity.
Qed.

Lemma encode_arguments_safe (args : list value) :
  Forall (fun v => Encoder.accepted v = true) args ->
  Forall (fun v => Encoder.safe v = true) args ->
  Encoder.encode_arguments_as Number_toString args
  = Encoder.encode_arguments args.
Proof.
  unfold Encoder.encode_arguments.
  induction 1 as [|v rest Ha _ IH]; [reflexivity|].
  intros Hsafe. inversion Hsafe as [|? ? Hv Hrest]; subst.
  cbn [Encoder.encode_arguments_as]. rewrite (IH Hrest). do 2 f_equal.
  destruct v as [| | b | [num den| |] | s | items | fields | [j|]];
    try reflexivity; try discriminate.
  cbn in Hv |- *. now apply integral_toString_safe.
Qed.

(** The line of a valid command, with every integer as JavaScript prints
    it. *)
Lemma sendCommand_line (cmdName : string) (cmdArgs : list value) :
  test_word cmdName = true ->
  Forall (fun v => Encoder.accepted v = true) cmdArgs ->
  sendCommand_args (sanitizeArgString cmdName) cmdArgs
  = Return (Encoder.encode_command_as Number_toString cmdName cmdArgs).
Proof.
  intros Hname Hargs.
  rewrite (sendCommand_args_accepted _ _ Hargs).
  now rewrite (sanitizeArgString_word _ Hname).
Qed.

(** C1. For a name of word characters and arguments that are strings,
    structured objects that have a JSON text, or integers of magnitude below
    [2^53], the line [sendCommand] builds, and hands to [sendRawCommand] when
    a child process exists, is the name as it is followed, for each argument
    in order, by a space and: two double quotes for the empty string; the
    string itself when it matches [^\w+$]; else the string between double
    quotes, each double quote in it replaced by U+FF02 and each newline by a
    space; for a structured object its JSON text quoted in that same way;
    for an integer its decimal numeral. *)
Theorem sendCommand_builds_line
    (stdin_write : string -> completion bool) (this : FxRunner)
    (cmdName : string) (cmdArgs : list value) (author : value) :
  test_word cmdName = true ->
  Forall (fun v => Encoder.accepted v = true) cmdArgs ->
  Forall (fun v => Encoder.safe v = true) cmdArgs ->
  sendCommand_args (sanitizeArgString cmdName) cmdArgs
    = Return (Encoder.encode_command cmdName cmdArgs)
  /\ (fxChild this <> None ->
      sendCommand stdin_write this cmdName cmdArgs author
      = sendRawCommand stdin_write this
          (Encoder.encode_command cmdName cmdArgs) author).
Proof.
  intros Hname Hargs Hsafe.
  assert (Hline : sendCommand_args (sanitizeArgString cmdName) cmdArgs
                  = Return (Encoder.encode_command cmdName cmdArgs)).
  { rewrite (sendCommand_line _ _ Hname Hargs).
    unfold Encoder.encode_command, Encoder.encode_command_as.
    now rewrite (encode_arguments_safe _ Hargs Hsafe). }
  split; [exact Hline|].
  intros Hchild. unfold sendCommand. rewrite Hline.
  destruct (fxChild this); [|congruence].
  destruct cmdName; [discriminate|]. cbn [is_empty].
  now rewrite Hname.
Qed.

Lemma sendCommand_builds_line_examples :
  sendCommand_args (sanitizeArgString "test") [VString "hello world"]
    = Return ("test " +:+ dq +:+ "hello world" +:+ dq)
  /\ sendCommand_args (sanitizeArgString "test") [VString EmptyString]
    = Return ("test " +:+ dq +:+ dq)
  /\ sendCommand_args (sanitizeArgString "test") [VString ("a" +:+ dq +:+ "b")]
    = Return ("test " +:+ dq +:+ "a" +:+ fullwidth_quote +:+ "b" +:+ dq)
  /\ sendCommand_args (sanitizeArgString "x") [VObject [("a", JNum 1)]]
    = Return ("x " +:+ dq +:+ "{" +:+ fullwidth_quote +:+ "a" +:+ fullwidth_quote
                +:+ ":1}" +:+ dq)
  /\ sendCommand Example.write Example.running "say"
       [VString ("two" +:+ nl +:+ "lines"); VNumber (int (-7));
        VNumber (int 9007199254740991)] VUndefined
    = ([StdinWrite ("say " +:+ dq +:+ "two lines" +:+ dq
                      +:+ " -7 9007199254740991" +:+ nl);
        LogSystemCommand ("say " +:+ dq +:+ "two lines" +:+ dq
                            +:+ " -7 9007199254740991")],
       Return true).
Proof.
  refine (conj _ (conj _ (conj _ (conj _ _)))).
  - exact (proj1 (sendCommand_builds_line Example.write constructed "test"
             [VString "hello world"] VUndefined eq_refl
             ltac:(repeat constructor) ltac:(repeat constructor))).
  - exact (proj1 (sendCommand_builds_line Example.write constructed "test"
             [VString EmptyString] VUndefined eq_refl
             ltac:(repeat constructor) ltac:(repeat constructor))).
  - exact (proj1 (sendCommand_builds_line Example.write constructed "test"
             [VString ("a" +:+ dq +:+ "b")] VUndefined eq_refl
             ltac:(repeat constructor) ltac:(repeat constructor))).
  - exact (proj1 (sendCommand_builds_line Example.write constructed "x"
             [VObject [("a", JNum 1)]] VUndefined eq_refl
             ltac:(repeat constructor) ltac:(repeat constructor))).
  - refine (eq_trans
              (proj2 (sendCommand_builds_line Example.write Example.running
                 "say"
                 [VString ("two" +:+ nl +:+ "lines"); VNumber (int (-7));
                  VNumber (int 9007199254740991)] VUndefined
                 eq_refl ltac:(repeat constructor) ltac:(repeat constructor))
                 _) _).
    + vm_compute. discriminate.
    + reflexivity.
Defined.

(** The integer [10^21] is an accepted argument; it goes out as [1e+21],
    which is not its decimal numeral. *)
Lemma sendCommand_writes_exponent :
  Encoder.accepted (VNumber (int (10 ^ 21))) = true
  /\ sendCommand Example.write Example.running "say"
       [VNumber (int (10 ^ 21))] VUndefined
     = ([StdinWrite ("say 1e+21" +:+ nl); LogSystemCommand "say 1e+21"],
        Return true)
  /\ Encoder.encode_command "say" [VNumber (int (10 ^ 21))]
     = "say 1000000000000000000000".
Proof.
  vm_compute. repeat split.
Qed.

(** With no child process [sendCommand] returns [false] before it looks at
    the name or the arguments. *)
Lemma sendCommand_without_child_returns_false :
  ~ raises (sendCommand Example.write constructed EmptyString
              [VBoolean true] VUndefined).
Proof.
  intros [message H]. discriminate H.
Qed.

(** C7. While a child process exists, a command name that is empty
    or holds a character that is not a word character, or an argument that
    is not a string, a structured object or an integral number, makes
    [sendCommand] throw before anything is written; with no child process
    [sendCommand] checks nothing and returns [false]. *)
Theorem sendCommand_raises_with_child
    (stdin_write : string -> completion bool) (this : FxRunner)
    (cmdName : string) (cmdArgs : list value) (author : value) :
  (fxChild this = None ->
   sendCommand stdin_write this cmdName cmdArgs author = ([], Return false))
  /\ (fxChild this <> None ->
      test_word cmdName = false
      \/ Exists (fun v => Encoder.accepted v = false) cmdArgs ->
      exists message,
        sendCommand stdin_write this cmdName cmdArgs author
        = ([], Throw message)).
Proof.
  unfold sendCommand. split.
  - intros ->. reflexivity.
  - intros Hchild Hbad.
    destruct (fxChild this) as [child|]; [clear Hchild|congruence].
    destruct (is_empty cmdName) eqn:Hempty; [eauto|].
    destruct (test_word cmdName) eqn:Hword; cbn [negb]; [|eauto].
    destruct Hbad as [Hbad|Hbad]; [discriminate|].
    destruct (sendCommand_args_refused _ (sanitizeArgString cmdName) Hbad)
      as [message ->].
    eauto.
Qed.

Lemma sendCommand_raises_with_child_witness :
  (exists message,
     sendCommand Example.write Example.running "bad name" [] VUndefined
     = ([], Throw message))
  /\ (exists message,
       sendCommand Example.write Example.running "say"
         [VString "hi"; VNumber (Finite 1 2)] VUndefined
       = ([], Throw message)).
Proof.
  split.
  - refine (proj2 (sendCommand_raises_with_child Example.write Example.running
                     "bad name" [] VUndefined) _ _).
    + vm_compute. discriminate.
    + left. reflexivity.
  - refine (proj2 (sendCommand_raises_with_child Example.write Example.running
                     "say" [VString "hi"; VNumber (Finite 1 2)] VUndefined) _ _).
    + vm_compute. discriminate.
    + right. apply Exists_cons_tl, Exists_cons_hd. reflexivity.
Defined.

(** ** Status of a history *)

Lemma getStatus_last (older : list HistoryEntry) (curr : HistoryEntry) :
  is_set (start (timestamps curr)) ->
  getStatus (older ++ [curr])
  = if truthy (kill (timestamps curr)) then
      if negb (length (pending_keys curr) =? 0)%nat then
        Return ("kill pending: "
                  +:+ join ", " (map key_name (pending_keys curr)))
      else Return "killed"
    else if truthy (exit (timestamps curr))
            && negb (truthy (close (timestamps curr))) then Return "closing"
    else if truthy (exit (timestamps curr))
            && truthy (close (timestamps curr)) then Return "closed"
    else Return "spawned".
Proof.
  intros Hstart. unfold getStatus. rewrite last_snoc.
  unfold is_set in Hstart. rewrite Hstart. reflexivity.
Qed.

(** C2. The status is a function of the history alone.  An empty history
    gives 'not started'.  When the last record has [start] set and [kill]
    absent: 'closed' with [exit] and [close] both set, 'closing' with
    [exit] set and [close] absent, 'spawned' with neither set.  When the last
    record has [start] and [kill] set: 'kill pending: ' and the names of the
    absent fields joined by ', ' while [exit] or [close] is absent, 'killed'
    once all four fields are set. *)
Theorem getStatus_projection (older : list HistoryEntry) (curr : HistoryEntry) :
  let ts := timestamps curr in
  let status := getStatus (older ++ [curr]) in
  getStatus [] = Return "not started"
  /\ (is_set (start ts) -> is_absent (kill ts) ->
      (is_set (exit ts) -> is_set (close ts) -> status = Return "closed")
      /\ (is_set (exit ts) -> is_absent (close ts) -> status = Return "closing")
      /\ (is_absent (exit ts) -> is_absent (close ts) ->
          status = Return "spawned"))
  /\ (is_set (start ts) -> is_set (kill ts) ->
      (is_absent (exit ts) -> is_absent (close ts) ->
       status = Return "kill pending: exit, close")
      /\ (is_absent (exit ts) -> is_set (close ts) ->
          status = Return "kill pending: exit")
      /\ (is_set (exit ts) -> is_absent (close ts) ->
          status = Return "kill pending: close")
      /\ (is_set (exit ts) -> is_set (close ts) -> status = Return "killed")).
Proof.
  intros ts status. subst ts status. unfold is_set, is_absent.
  split; [reflexivity|].
  split; intros Hstart Hkill; rewrite (getStatus_last _ _ Hstart);
    unfold pending_keys, Object_keys; cbn [List.filter get];
    rewrite Hstart, Hkill; cbn [negb];
    repeat split; intros -> ->; reflexivity.
Qed.

Lemma getStatus_projection_witness :
  getStatus
    [{| pid := "4242";
        timestamps := {| start := At 1700000000; kill := At 1700000009;
                         exit := Absent; close := Absent |} |}]
  = Return "kill pending: exit, close"
  /\ getStatus
       [{| pid := "4242";
           timestamps := {| start := At 1700000000; kill := Absent;
                            exit := Absent; close := Absent |} |}]
     = Return "spawned"
  /\ getStatus
       [{| pid := "4242";
           timestamps := {| start := At 1700000000; kill := At 1700000009;
                            exit := At 1700000010; close := At 1700000011 |} |}]
     = Return "killed".
Proof.
  refine (conj _ (conj _ _)).
  - apply (getStatus_projection []
             {| pid := "4242";
                timestamps := {| start := At 1700000000; kill := At 1700000009;
                                 exit := Absent; close := Absent |} |});
      reflexivity.
  - apply (getStatus_projection []
             {| pid := "4242";
                timestamps := {| start := At 1700000000; kill := Absent;
                                 exit := Absent; close := Absent |} |});
      reflexivity.
  - apply (getStatus_projection []
             {| pid := "4242";
                timestamps := {| start := At 1700000000; kill := At 1700000009;
                                 exit := At 1700000010;
                                 close := At 1700000011 |} |});
      reflexivity.
Defined.

(** ** The supervisor, segment by segment *)

Section Properties.

Variable txConfig : TxConfig.
Variable stdin_write : string -> completion bool.
Variable translator_t : string -> string -> string -> string.
Variable isWindows : bool.
Variable fxServerPath alpinePath : string.
Variable cmdArgs : list string.

Local Abbreviation spawn_begin :=
  (spawnServer_begin txConfig isWindows fxServerPath alpinePath cmdArgs).
Local Abbreviation spawn_resume := (spawnServer_resume txConfig).
Local Abbreviation kill_begin := (killServer_begin txConfig stdin_write translator_t).
Local Abbreviation step_ :=
  (step txConfig stdin_write translator_t isWindows fxServerPath alpinePath cmdArgs).
Local Abbreviation run_ :=
  (run txConfig stdin_write translator_t isWindows fxServerPath alpinePath cmdArgs).
Local Abbreviation reachable_ :=
  (reachable txConfig stdin_write translator_t isWindows fxServerPath alpinePath
     cmdArgs).
Local Abbreviation previous_accepted_ :=
  (previous_accepted txConfig stdin_write translator_t isWindows fxServerPath
     alpinePath cmdArgs).

Lemma sendEvent_returns (this : FxRunner) (eventType : string) (data : value) :
  is_empty eventType = false ->
  exists success,
    sendEvent stdin_write this eventType data
    = ((sendEvent stdin_write this eventType data).1, Return success).
Proof.
  intros H. unfold sendEvent. rewrite H.
  destruct (sendCommand _ _ _ _ _) as [sent [success|message]]; cbn; eauto.
Qed.

(** [killServer] up to its sleep: the debounce, or the notice, the
    announcement and the sleep. *)
Lemma killServer_begin_cases (this : FxRunner) (msTimestamp : Z)
    (reason author : option string) (isRestarting : bool) :
  kill_begin this msTimestamp reason author isRestarting
  = if msTimestamp - lastKillRequest this <? shutdownNoticeDelayMs txConfig then
      (this, [], Finished (Return (Some restart_in_progress)))
    else
      (with_lastKillRequest msTimestamp this,
       (sendEvent stdin_write (with_lastKillRequest msTimestamp this)
          "serverShuttingDown"
          (shuttingDown txConfig translator_t reason author isRestarting)).1
       ++ [SendAnnouncement (messageColor isRestarting)
             ("server_actions." +:+ messageType isRestarting +:+ "_discord");
           Sleep (Z.max (shutdownNoticeDelayMs txConfig) 250)],
       Suspended).
Proof.
  unfold killServer_begin.
  destruct (msTimestamp - lastKillRequest this <? shutdownNoticeDelayMs txConfig); [reflexivity|].
  match goal with
  | |- context [sendEvent ?w ?r ?ty ?d] =>
      destruct (sendEvent_returns r ty d eq_refl) as [success ->]
  end.
  reflexivity.
Qed.

(** Case analysis on whatever the goal still matches on: the result of a
    segment, a task, a flag. *)
Ltac by_cases_of_goal :=
  repeat match goal with
         | |- context [match ?x with _ => _ end] => destruct x
         end;
  try reflexivity.

Lemma runner_enter_spawnServer s announce mutex caller :
  runner (next (enter_spawnServer txConfig isWindows fxServerPath alpinePath
                  cmdArgs s announce mutex caller))
  = (spawn_begin (runner s) mutex).1.1.
Proof.
  unfold enter_spawnServer.
  destruct (spawn_begin (runner s) mutex) as [[r effs] [result|]]; reflexivity.
Qed.

Lemma runner_enter_killServer s msTimestamp reason author isRestarting caller :
  runner (next (enter_killServer txConfig stdin_write translator_t s msTimestamp
                  reason author isRestarting caller))
  = (kill_begin (runner s) msTimestamp reason author isRestarting).1.1.
Proof.
  unfold enter_killServer.
  destruct (kill_begin (runner s) msTimestamp reason author isRestarting)
    as [[r effs] [result|]]; reflexivity.
Qed.

Lemma runner_finish_killServer s now reasonString caller :
  runner (next (finish_killServer txConfig s now reasonString caller))
  = (killServer_resume (runner s) now reasonString).1.1.
Proof.
  unfold finish_killServer.
  destruct (killServer_resume (runner s) now reasonString)
    as [[r effs] killError].
  cbn [fst]. by_cases_of_goal.
Qed.

Lemma runner_finish_spawnServer s announce caller validation child now :
  runner (next (finish_spawnServer txConfig s announce caller validation child now))
  = (spawn_resume (runner s) announce validation child now).1.1.1.
Proof.
  unfold finish_spawnServer.
  destruct (spawn_resume (runner s) announce validation child now)
    as [[[r effs] result] attached]; reflexivity.
Qed.

(** A relation between the supervisor before and after an event holds of
    every turn of the event loop once it holds of each segment, for
    readings of the clock in [T]. *)
Lemma step_runner_ind (T : Z -> Prop)
    (R : event -> FxRunner -> FxRunner -> Prop) :
  (forall e r, R e r r) ->
  (forall e r mutex, R e r (spawn_begin r mutex).1.1) ->
  (forall i r announce validation child now, T now ->
     R (ValidatorSettled i validation child now) r
       (spawn_resume r announce validation child now).1.1.1) ->
  (forall e r msTimestamp reason author isRestarting,
     kill_request e = Some msTimestamp ->
     R e r (kill_begin r msTimestamp reason author isRestarting).1.1) ->
  (forall i r now reasonString, T now ->
     R (ShutdownNoticeElapsed i now) r
       (killServer_resume r now reasonString).1.1) ->
  (forall r i code now, T now ->
     R (ChildClose i code now) r
       (with_history (alter (set_close now) i (history r)) r)) ->
  (forall r i now, T now ->
     R (ChildExit i now) r
       (with_history (alter (set_exit now) i (history r)) r)) ->
  (forall r ms,
     R (SetRestartSpawnDelayOverride ms) r
       (with_restartSpawnDelayOverride ms r)) ->
  forall s e, readings T e -> R e (runner s) (runner (next (step_ s e))).
Proof.
  intros Hrefl Hsb Hsr Hkb Hkr Hclose Hexit Hover s e Hclock.
  destruct e; cbn [step readings] in *.
  - rewrite runner_enter_spawnServer. apply Hsb.
  - rewrite runner_enter_killServer. now apply Hkb.
  - rewrite runner_enter_killServer. now apply Hkb.
  - destruct (tasks s !! i) as [[reasonString caller| |]|]; try apply Hrefl.
    rewrite runner_finish_killServer. now apply Hkr.
  - destruct (tasks s !! i) as [[| |]|]; try apply Hrefl.
    rewrite runner_enter_spawnServer. apply Hsb.
  - destruct (tasks s !! i) as [[| |announce caller]|]; try apply Hrefl.
    rewrite runner_finish_spawnServer. now apply Hsr.
  - destruct (listening s historyIndex); [|apply Hrefl].
    unfold on_close.
    destruct (history (runner s) !! historyIndex); [|apply Hrefl].
    now apply Hclose.
  - destruct (listening s historyIndex); [|apply Hrefl].
    unfold on_exit.
    destruct (history (runner s) !! historyIndex); [|apply Hrefl].
    now apply Hexit.
  - destruct (listening s historyIndex); [|apply Hrefl].
    destruct (history (runner s) !! historyIndex); apply Hrefl.
  - destruct (listening s historyIndex); [|apply Hrefl].
    destruct (history (runner s) !! historyIndex); apply Hrefl.
  - destruct (chanEventBlackHole (blackHole s) currentTime) as [[m effs] []];
      apply Hrefl.
  - apply Hover.
Qed.

Lemma readings_any (e : event) : readings (fun _ => True) e.
Proof. destruct e; exact I. Qed.

(** ** The history only grows *)

Lemma evolves_refl (e : HistoryEntry) : evolves e e.
Proof. unfold evolves. auto. Qed.

Lemma evolves_trans (a b c : HistoryEntry) :
  evolves a b -> evolves b c -> evolves a c.
Proof.
  unfold evolves. intros (? & ? & ? & ? & ?) (? & ? & ? & ? & ?).
  repeat split; try congruence; auto.
Qed.

Lemma is_set_At (now : Z) : 0 < now -> is_set (At now).
Proof.
  intros H. unfold is_set, truthy.
  destruct (Z.eqb_spec now 0); [lia|reflexivity].
Qed.

Lemma evolves_set_kill now e : 0 < now -> evolves e (set_kill now e).
Proof.
  intros H. unfold evolves. cbn.
  repeat split; auto using is_set_At.
Qed.

Lemma evolves_set_exit now e : 0 < now -> evolves e (set_exit now e).
Proof.
  intros H. unfold evolves. cbn.
  repeat split; auto using is_set_At.
Qed.

Lemma evolves_set_close now e : 0 < now -> evolves e (set_close now e).
Proof.
  intros H. unfold evolves. cbn.
  repeat split; auto using is_set_At.
Qed.

Lemma evolves_started e e' : evolves e e' -> started e -> started e'.
Proof. unfold evolves, started. intros (_ & -> & _). auto. Qed.

Lemma fresh_started e : fresh e -> started e.
Proof. unfold fresh, started. tauto. Qed.

Lemma Forall2_evolves_refl (h : list HistoryEntry) : Forall2 evolves h h.
Proof. induction h; constructor; auto using evolves_refl. Qed.

Create HintDb lifecycle.
#[local] Hint Resolve evolves_refl Forall2_evolves_refl is_set_At
  evolves_set_kill evolves_set_exit evolves_set_close fresh_started
  : lifecycle.

Lemma Forall2_evolves_alter (f : HistoryEntry -> HistoryEntry)
    (h : list HistoryEntry) :
  (forall e, evolves e (f e)) -> forall i, Forall2 evolves h (alter f i h).
Proof.
  intros Hf. induction h as [|e h IH]; intros [|i]; cbn; constructor;
    auto using evolves_refl, Forall2_evolves_refl.
Qed.

Lemma grows_refl P (h : list HistoryEntry) : grows P h h.
Proof.
  exists h, []. rewrite app_nil_r. auto using Forall2_evolves_refl.
Qed.

Lemma grows_alter P f (h : list HistoryEntry) i :
  (forall e, evolves e (f e)) -> grows P h (alter f i h).
Proof.
  intros Hf. exists (alter f i h), []. rewrite app_nil_r.
  auto using Forall2_evolves_alter.
Qed.

Lemma grows_snoc (P : HistoryEntry -> Prop) h e : P e -> grows P h (h ++ [e]).
Proof.
  intros He. exists h, [e]. auto using Forall2_evolves_refl.
Qed.

Lemma grows_weaken (P Q : HistoryEntry -> Prop) h h' :
  (forall e, P e -> Q e) -> grows P h h' -> grows Q h h'.
Proof.
  intros HPQ (kept & added & -> & Hkept & Hadded).
  exists kept, added. repeat split; auto.
  eapply Forall_impl; eauto.
Qed.

Lemma grows_trans h h' h'' :
  grows started h h' -> grows started h' h'' -> grows started h h''.
Proof.
  intros (k1 & a1 & -> & Hk1 & Ha1) (k2 & a2 & -> & Hk2 & Ha2).
  apply Forall2_app_inv_l in Hk2 as (k2a & k2b & Hka & Hkb & ->).
  exists k2a, (k2b ++ a2). rewrite <- app_assoc. repeat split.
  - clear -Hk1 Hka. revert k2a Hka.
    induction Hk1; intros k2a Hka; inversion Hka; subst; constructor;
      eauto using evolves_trans.
  - apply Forall_app. split; [|assumption].
    clear -Ha1 Hkb. induction Hkb; inversion Ha1; subst; constructor;
      eauto using evolves_started.
Qed.

Lemma grows_started h h' :
  grows started h h' -> Forall started h -> Forall started h'.
Proof.
  intros (kept & added & -> & Hkept & Hadded) Hh.
  apply Forall_app. split; [|assumption].
  clear -Hkept Hh. induction Hkept; inversion Hh; subst; constructor;
    eauto using evolves_started.
Qed.

(** What each segment leaves of the fields it does not own. *)
Lemma spawnServer_begin_keeps (r : FxRunner) (mutex : string) :
  let r' := (spawn_begin r mutex).1.1 in
  history r' = history r
  /\ lastKillRequest r' = lastKillRequest r
  /\ restartSpawnDelayOverride r' = restartSpawnDelayOverride r
  /\ fxChild r' = fxChild r.
Proof.
  unfold spawnServer_begin, setupVariables.
  destruct (fxChild r) eqn:Hchild; [cbn; auto|].
  destruct isWindows; destruct (isConfigured txConfig); cbn; auto.
Qed.

Lemma spawnServer_resume_keeps r announce validation child now :
  let r' := (spawn_resume r announce validation child now).1.1.1 in
  lastKillRequest r' = lastKillRequest r
  /\ restartSpawnDelayOverride r' = restartSpawnDelayOverride r
  /\ (history r' = history r
      \/ exists pid,
           history r'
           = history r
               ++ [{| pid := pid;
                      timestamps := {| start := At now; kill := Absent;
                                       exit := Absent; close := Absent |} |}]).
Proof.
  unfold spawnServer_resume.
  destruct validation as [result|message]; [|cbn; auto].
  destruct (truthy_string (errors result)); [cbn; auto|].
  cbn [spawnVariables with_fxServerHost].
  destruct (spawnVariables r) as [vars|]; [|cbn; auto].
  destruct (child_pid child) as [p|]; cbn; eauto.
Qed.

Lemma killServer_begin_keeps r msTimestamp reason author isRestarting :
  let r' := (kill_begin r msTimestamp reason author isRestarting).1.1 in
  history r' = history r
  /\ restartSpawnDelayOverride r' = restartSpawnDelayOverride r.
Proof.
  rewrite killServer_begin_cases.
  destruct (msTimestamp - lastKillRequest r <? shutdownNoticeDelayMs txConfig); cbn; auto.
Qed.

Lemma killServer_resume_keeps r now reasonString :
  let r' := (killServer_resume r now reasonString).1.1 in
  lastKillRequest r' = lastKillRequest r
  /\ restartSpawnDelayOverride r' = restartSpawnDelayOverride r
  /\ (history r' = history r
      \/ history r'
         = alter (set_kill now) (length (history r) - 1)%nat (history r)).
Proof.
  unfold killServer_resume.
  destruct (fxChild r) as [child|]; [|cbn; auto].
  cbn [history with_fxChild].
  destruct (last (history r)); cbn; auto.
Qed.

(** One turn of the event loop appends at most a fresh record and lets the
    others evolve. *)
Lemma step_grows (s : System) (e : event) :
  clock_ok e ->
  grows fresh (history (runner s)) (history (runner (next (step_ s e)))).
Proof.
  apply (step_runner_ind (fun now => 0 < now)
           (fun _ r r' => grows fresh (history r) (history r'))).
  - intros _ r. apply grows_refl.
  - intros _ r mutex.
    destruct (spawnServer_begin_keeps r mutex) as (-> & _). apply grows_refl.
  - intros _ r announce validation child now Hnow.
    destruct (spawnServer_resume_keeps r announce validation child now)
      as (_ & _ & [-> | [pid ->]]); [apply grows_refl|].
    apply grows_snoc. unfold fresh. cbn. auto with lifecycle.
  - intros _ r msTimestamp reason author isRestarting _.
    destruct (killServer_begin_keeps r msTimestamp reason author isRestarting)
      as (-> & _).
    apply grows_refl.
  - intros _ r now reasonString Hnow.
    destruct (killServer_resume_keeps r now reasonString)
      as (_ & _ & [-> | ->]); [apply grows_refl|].
    apply grows_alter. auto with lifecycle.
  - intros r i _ now Hnow. apply grows_alter. auto with lifecycle.
  - intros r i now Hnow. apply grows_alter. auto with lifecycle.
  - intros r ms. apply grows_refl.
Qed.

Lemma run_grows (es : list event) : forall s : System,
  Forall clock_ok es ->
  grows started (history (runner s)) (history (runner (next (run_ s es)))).
Proof.
  induction es as [|e es IH]; intros s Hes; cbn [run next].
  - apply grows_refl.
  - inversion Hes; subst.
    eapply grows_trans; [|apply IH; assumption].
    eapply grows_weaken; [apply fresh_started|]. now apply step_grows.
Qed.

(** X20. A record enters the history with [start] set, the other fields
    absent and its process identifier; over any events after that its [pid]
    and [start] stay as they are and a [kill], [exit] or [close] that is set
    stays set, though it may be written again; the history keeps its
    records, in their order, and new ones come at the end. *)
Theorem history_append_only (s : System) (e : event) (es : list event) :
  clock_ok e ->
  Forall clock_ok es ->
  grows fresh (history (runner s)) (history (runner (next (step_ s e))))
  /\ grows started (history (runner s)) (history (runner (next (run_ s es)))).
Proof.
  intros He Hes. split; [now apply step_grows|now apply run_grows].
Qed.

(** ** Every record of a reachable history has started *)

Lemma reachable_started (s : System) :
  reachable_ s -> Forall started (history (runner s)).
Proof.
  induction 1 as [|s e _ IH Hclock]; [constructor|].
  eapply grows_started; [|exact IH].
  eapply grows_weaken; [apply fresh_started|]. now apply step_grows.
Qed.

Lemma getStatus_started (h : list HistoryEntry) :
  Forall started h ->
  exists status, getStatus h = Return status /\ live_label status.
Proof.
  intros Hh. destruct h as [|e h _] using rev_ind.
  - exists "not started". split; [reflexivity|]. unfold live_label. auto.
  - apply Forall_app in Hh as [_ Hcurr]. inversion Hcurr as [|? ? Hstart _]; subst.
    rewrite (getStatus_last _ _ Hstart). unfold live_label.
    destruct (truthy (kill (timestamps e))).
    + destruct (negb (length (pending_keys e) =? 0)%nat); eauto 10.
    + destruct (truthy (exit (timestamps e))), (truthy (close (timestamps e)));
        cbn; eauto 10.
Qed.

Lemma live_label_not_spawn (status : string) :
  live_label status ->
  status <> "spawn ready"
  /\ forall pending, status <> "spawn awaiting last: " +:+ pending.
Proof.
  intros [-> | [-> | [-> | [-> | [-> | [p ->]]]]]];
    (split; [intros H | intros pending H]; cbv in H; discriminate H).
Qed.

(** C10. In every state the supervisor reaches through [spawnServer],
    [killServer], [restartServer] and the listeners on its children, every
    record of the history has [start] set; so [getStatus] does not throw
    and its label is one of 'not started', 'spawned', 'kill pending: ..',
    'killed', 'closing', 'closed', never 'spawn ready' or
    'spawn awaiting last: ..'. *)
Theorem reachable_status (s : System) :
  reachable_ s ->
  Forall started (history (runner s))
  /\ exists status,
       getStatus (history (runner s)) = Return status
       /\ live_label status
       /\ status <> "spawn ready"
       /\ forall pending, status <> "spawn awaiting last: " +:+ pending.
Proof.
  intros Hs. pose proof (reachable_started s Hs) as Hstarted.
  split; [exact Hstarted|].
  destruct (getStatus_started _ Hstarted) as (status & Hstatus & Hlive).
  exists status. split; [exact Hstatus|]. split; [exact Hlive|].
  now apply live_label_not_spawn.
Qed.

(** ** The debounce of kill requests *)

Lemma with_runner_same (s : System) : with_runner (runner s) s = s.
Proof. destruct s; reflexivity. Qed.

Lemma enter_killServer_cases s msTimestamp reason author isRestarting caller :
  enter_killServer txConfig stdin_write translator_t s msTimestamp reason
    author isRestarting caller
  = if msTimestamp - lastKillRequest (runner s) <? shutdownNoticeDelayMs txConfig then
      {| next := s; effects := [];
         settled := [(caller, Return (Some restart_in_progress))] |}
    else
      {| next :=
           with_tasks
             (tasks s ++ [KillServerSleeping (reasonString_of reason) caller])
             (with_runner (with_lastKillRequest msTimestamp (runner s)) s);
         effects :=
           (kill_begin (runner s) msTimestamp reason author isRestarting).1.2;
         settled := [] |}.
Proof.
  unfold enter_killServer. rewrite killServer_begin_cases.
  destruct (msTimestamp - lastKillRequest (runner s) <? shutdownNoticeDelayMs txConfig);
    [|reflexivity].
  now rewrite with_runner_same.
Qed.

Lemma step_keeps_lastKillRequest (s : System) (e : event) :
  kill_request e = None ->
  lastKillRequest (runner (next (step_ s e))) = lastKillRequest (runner s).
Proof.
  intros He. revert He.
  apply (step_runner_ind (fun _ => True)
           (fun e r r' =>
              kill_request e = None -> lastKillRequest r' = lastKillRequest r));
    try (intros; reflexivity); try apply readings_any.
  - intros _ r mutex _. apply spawnServer_begin_keeps.
  - intros i r announce validation child now _ _.
    apply spawnServer_resume_keeps.
  - intros e' r msTimestamp reason author isRestarting Hreq Hnone. congruence.
  - intros i r now reasonString _ _. apply killServer_resume_keeps.
Qed.

(** Along any events the supervisor's [lastKillRequest] is the time of the
    latest kill request it did not reject. *)
Lemma previous_accepted_lastKillRequest (es : list event) :
  forall (s : System) (previous : option Z) (t1 : Z),
    (forall t, previous = Some t -> lastKillRequest (runner s) = t) ->
    previous_accepted_ s es previous = Some t1 ->
    lastKillRequest (runner (next (run_ s es))) = t1.
Proof.
  induction es as [|e es IH]; intros s previous t1 Hprev Hacc;
    cbn [previous_accepted run next] in *.
  - now apply Hprev.
  - eapply IH; [|exact Hacc]. clear Hacc IH. intros t.
    destruct (kill_request e) as [msTimestamp|] eqn:Hreq.
    + assert (Hstep : exists reason author isRestarting caller,
                 step_ s e
                 = enter_killServer txConfig stdin_write translator_t s
                     msTimestamp reason author isRestarting caller).
      { destruct e; try discriminate; injection Hreq as <-;
          cbn [step]; eauto. }
      destruct Hstep as (reason & author & isRestarting & caller & ->).
      rewrite enter_killServer_cases.
      destruct (msTimestamp - lastKillRequest (runner s) <? shutdownNoticeDelayMs txConfig).
      * unfold rejected. cbn. auto.
      * unfold rejected. cbn. congruence.
    + rewrite (step_keeps_lastKillRequest _ _ Hreq). apply Hprev.
Qed.

(** C3. A [killServer] that comes less than the shutdown notice delay after
    the latest kill request that was not rejected returns
    'Restart already in progress.' and does nothing else: no notice, no
    announcement, no signal, the child handle, the history and
    [lastKillRequest] as they were, nothing left waiting.  The same holds
    of the [killServer] inside a [restartServer]. *)
Theorem killServer_debounced (s : System) (es : list event) (t1 t2 : Z)
    (reason author : option string) (isRestarting : bool) :
  previous_accepted_ s es None = Some t1 ->
  t2 - t1 < shutdownNoticeDelayMs txConfig ->
  let s' := next (run_ s es) in
  step_ s' (CallKillServer t2 reason author isRestarting)
  = {| next := s'; effects := [];
       settled := [(KillServer, Return (Some restart_in_progress))] |}
  /\ step_ s' (CallRestartServer t2 reason author)
     = {| next := s'; effects := [];
          settled := [(RestartServer, Return (Some restart_in_progress))] |}.
Proof.
  intros Hacc Hlt s'.
  assert (Hlast : lastKillRequest (runner s') = t1).
  { eapply previous_accepted_lastKillRequest; [|exact Hacc]. discriminate. }
  cbn [step]. rewrite !enter_killServer_cases, Hlast.
  destruct (Z.ltb_spec (t2 - t1) (shutdownNoticeDelayMs txConfig)); [|lia].
  split; reflexivity.
Qed.

(** ** An accepted kill *)

Lemma alter_last (f : HistoryEntry -> HistoryEntry) older curr :
  alter f (length (older ++ [curr]) - 1)%nat (older ++ [curr])
  = older ++ [f curr].
Proof.
  rewrite length_app. cbn [length].
  replace (length older + 1 - 1)%nat with (length older + 0)%nat by lia.
  now rewrite alter_app_r.
Qed.

(** With a child handle and an empty history, as a spawn that got no
    process identifier leaves them, the signal is sent and the handle
    cleared, but there is no record to stamp: the failure message comes
    back and the cleanup collaborators are not called. *)
Lemma killServer_resume_without_record (later : FxRunner) (now : Z)
    (reasonString : string) (child : ChildProcess) :
  fxChild later = Some child ->
  history later = [] ->
  killServer_resume later now reasonString
  = (with_fxChild None (with_fxChild None later),
     [KillSignal child; Console "error" could_not_kill; ConsoleDir],
     Some could_not_kill).
Proof.
  intros Hchild Hhistory. unfold killServer_resume.
  rewrite Hchild. cbn [history with_fxChild]. rewrite Hhistory. reflexivity.
Qed.

(** ** Validation of the configuration file *)

(** C5. When the validator reports errors, [spawnServer] returns
    the line '**Unable to start the server due to error(s) in your config
    file(s):**' followed by the validator's error text, and starts no
    process; when it reports warnings and no errors, [spawnServer] logs them
    and goes on to start the process. *)
Theorem spawnServer_validation (this : FxRunner) (announce : value)
    (result : ValidationResult) (child : ChildProcess) (now : Z) :
  (truthy_string (errors result) = true ->
   exists text,
     errors result = Some text
     /\ spawn_resume this announce (Return result) child now
        = (this, [Console "error" (errors_header +:+ text)],
           Return (Some (errors_header +:+ text)), None))
  /\ (truthy_string (errors result) = false ->
      truthy_string (warnings result) = true ->
      forall vars, spawnVariables this = Some vars ->
      exists text after later returned attached,
        warnings result = Some text
        /\ spawn_resume this announce (Return result) child now
           = (later, Console "warn" (warnings_header +:+ text) :: after,
              returned, attached)
        /\ In (Spawn vars (server_dataPath txConfig)) after
        /\ fxChild later = Some child).
Proof.
  unfold spawnServer_resume. split.
  - intros Herr. rewrite Herr.
    destruct (errors result) as [text|]; [|discriminate]. eauto.
  - intros Herr Hwarn vars Hvars. rewrite Herr, Hwarn.
    destruct (warnings result) as [text|]; [|discriminate].
    cbn [spawnVariables with_fxServerHost]. rewrite Hvars.
    exists text.
    destruct (child_pid child) as [p|]; do 4 eexists;
      (split; [reflexivity|]); (split; [reflexivity|]);
      (split; [|reflexivity]);
      destruct (announcing announce); cbn; auto 10.
Qed.

(** ** The restart delay *)

Lemma step_keeps_override (s : System) (e : event) :
  is_override e = false ->
  restartSpawnDelayOverride (runner (next (step_ s e)))
  = restartSpawnDelayOverride (runner s).
Proof.
  intros He. revert He.
  apply (step_runner_ind (fun _ => True)
           (fun e r r' =>
              is_override e = false ->
              restartSpawnDelayOverride r' = restartSpawnDelayOverride r));
    try (intros; reflexivity); try apply readings_any.
  - intros _ r mutex _. apply spawnServer_begin_keeps.
  - intros i r announce validation child now _ _.
    apply spawnServer_resume_keeps.
  - intros e' r msTimestamp reason author isRestarting _ _.
    apply killServer_begin_keeps.
  - intros i r now reasonString _ _. apply killServer_resume_keeps.
  - intros r ms H. discriminate H.
Qed.

Lemma run_keeps_override (es : list event) : forall s : System,
  Forall (fun e => is_override e = false) es ->
  restartSpawnDelayOverride (runner (next (run_ s es)))
  = restartSpawnDelayOverride (runner s).
Proof.
  induction es as [|e es IH]; intros s Hes; cbn [run next]; [reflexivity|].
  inversion Hes; subst. rewrite IH by assumption.
  now apply step_keeps_override.
Qed.

(** C6. No operation of the supervisor assigns the restart delay
    override: over any events that do not assign it from outside it keeps its
    value, and every [restartServer] that gets past its kill sleeps for the
    override when it is not zero, and for the configured restart spawn delay
    when it is zero. *)
Theorem restartServer_delay_persists (s : System) (es : list event)
    (i : nat) (now : Z) (reasonString : string) :
  Forall (fun e => is_override e = false) es ->
  let s' := next (run_ s es) in
  let o := step_ s' (ShutdownNoticeElapsed i now) in
  restartSpawnDelayOverride (runner s') = restartSpawnDelayOverride (runner s)
  /\ (tasks s' !! i = Some (KillServerSleeping reasonString RestartServer) ->
      settled o = [] ->
      restartSpawnDelayOverride (runner (next o))
      = restartSpawnDelayOverride (runner s)
      /\ exists before,
           effects o
           = before
               ++ [Sleep (if restartSpawnDelayOverride (runner s) =? 0
                          then server_restartSpawnDelayMs txConfig
                          else restartSpawnDelayOverride (runner s))]).
Proof.
  intros Hes s' o. pose proof (run_keeps_override es s Hes) as Hkeep.
  split; [exact Hkeep|]. intros Htask Hsettled. split.
  - subst o. rewrite step_keeps_override by reflexivity. exact Hkeep.
  - subst o. cbn [step] in *. rewrite Htask in *.
    unfold finish_killServer in *. cbn [runner with_tasks] in *.
    destruct (killServer_resume_keeps (runner s') now reasonString)
      as (_ & Hover & _).
    destruct (killServer_resume (runner s') now reasonString)
      as [[r effs] killError].
    cbn [fst] in Hover.
    destruct (truthy_string killError); [discriminate Hsettled|].
    clear Hsettled. unfold restartServer_delay. rewrite Hover.
    subst s'. rewrite Hkeep.
    destruct (restartSpawnDelayOverride (runner s) =? 0); cbn [negb effects];
      eexists; rewrite app_assoc; reflexivity.
Qed.

(** ** Listeners point into the history *)

Lemma step_listeners (s : System) (e : event) :
  listeners (next (step_ s e))
  = listeners s
    ++ match e with
       | ValidatorSettled i validation child now =>
           match tasks s !! i with
           | Some (SpawnServerValidating announce caller) =>
               from_option (fun historyIndex => [historyIndex]) []
                 (spawn_resume (runner s) announce validation child now).2
           | _ => []
           end
       | _ => []
       end.
Proof.
  destruct e; cbn [step]; rewrite ?app_nil_r;
    unfold enter_spawnServer, enter_killServer, finish_killServer,
      finish_spawnServer, on_close, on_exit;
    cbn [runner with_tasks]; by_cases_of_goal;
    rewrite app_nil_r; reflexivity.
Qed.

(** The index the listeners capture is that of the record just pushed. *)
Lemma spawnServer_resume_attached r announce validation child now historyIndex :
  (spawn_resume r announce validation child now).2 = Some historyIndex ->
  (historyIndex
   < length (history (spawn_resume r announce validation child now).1.1.1))%nat.
Proof.
  unfold spawnServer_resume.
  destruct validation as [result|message]; [|discriminate].
  destruct (truthy_string (errors result)); [discriminate|].
  cbn [spawnVariables with_fxServerHost].
  destruct (spawnVariables r) as [vars|]; [|discriminate].
  destruct (child_pid child) as [p|]; [|discriminate].
  cbn. intros [= <-]. rewrite length_app. cbn. lia.
Qed.

Lemma grows_length P (h h' : list HistoryEntry) :
  grows P h h' -> (length h <= length h')%nat.
Proof.
  intros (kept & added & -> & Hkept & _).
  rewrite length_app, <- (Forall2_length _ _ _ Hkept). lia.
Qed.

(** In a reachable state every attached listener finds its record: the
    [close] and [exit] handlers never index past the history. *)
Lemma reachable_listeners (s : System) :
  reachable_ s ->
  Forall (fun historyIndex => (historyIndex < length (history (runner s)))%nat)
    (listeners s).
Proof.
  induction 1 as [|s e _ IH Hclock]; [constructor|].
  rewrite step_listeners. apply Forall_app. split.
  - eapply Forall_impl; [exact IH|]. cbn. intros historyIndex Hlt.
    pose proof (grows_length _ _ _ (step_grows s e Hclock)). lia.
  - destruct e; try constructor. cbn [step].
    destruct (tasks s !! i) as [[| |announce caller]|]; try constructor.
    rewrite runner_finish_spawnServer. cbn [runner with_tasks].
    destruct ((spawn_resume (runner s) announce validation child now).2)
      as [historyIndex|] eqn:Hattached; [|constructor].
    repeat constructor. now apply spawnServer_resume_attached.
Qed.

(** ** A kill from call to return *)

(** An accepted [killServer] waits as the last task; when its sleep is over
    it runs [killServer_resume] on the supervisor of that moment and settles
    with what that returns. *)
Lemma killServer_call_and_return (s later : System) (msTimestamp now : Z)
    (reason author : option string) (isRestarting : bool) (i : nat) :
  shutdownNoticeDelayMs txConfig <= msTimestamp - lastKillRequest (runner s) ->
  tasks (next (step_ s (CallKillServer msTimestamp reason author isRestarting)))
  = tasks s ++ [KillServerSleeping (reasonString_of reason) KillServer]
  /\ (tasks later !! i
      = Some (KillServerSleeping (reasonString_of reason) KillServer) ->
      let o := step_ later (ShutdownNoticeElapsed i now) in
      runner (next o)
      = (killServer_resume (runner later) now (reasonString_of reason)).1.1
      /\ effects o
         = (killServer_resume (runner later) now (reasonString_of reason)).1.2
      /\ settled o
         = [(KillServer,
             Return (killServer_resume (runner later) now
                       (reasonString_of reason)).2)]
      /\ tasks (next o) = delete i (tasks later)).
Proof.
  intros Haccept. split.
  - cbn [step]. rewrite enter_killServer_cases.
    destruct (Z.ltb_spec (msTimestamp - lastKillRequest (runner s)) (shutdownNoticeDelayMs txConfig));
      [lia|reflexivity].
  - intros Htask. cbn [step]. rewrite Htask. unfold finish_killServer.
    cbn [runner with_tasks].
    destruct (killServer_resume (runner later) now (reasonString_of reason))
      as [[r effs] killError].
    repeat split.
Qed.

(** ** Stream noise *)

(** However close together the stream events come, each one is logged and
    ends in the error of the assignment, and the supervisor is left as it
    was. *)
Lemma noise_all_logged (times : list Z) : forall s : System,
  Forall (fun currentTime => blackHoleSpillMaxInterval < currentTime) times ->
  lastBlackHoleSpewTime (blackHole s) = 0 ->
  let o := run_ s (map StreamNoise times) in
  effects o
  = concat
      (map (fun _ => [Console "verbose.error" "StdIo unexpected event:";
                      ConsoleDir; Uncaught "lastLogTime is not defined"])
         times)
  /\ runner (next o) = runner s
  /\ lastBlackHoleSpewTime (blackHole (next o)) = 0.
Proof.
  induction times as [|currentTime times IH]; intros s Htimes Hzero;
    cbn [map run concat effects next].
  - auto.
  - inversion Htimes as [|? ? Hlate Hrest]; subst.
    cbn [step]. unfold chanEventBlackHole. rewrite Hzero, Z.sub_0_r.
    destruct (Z.ltb_spec blackHoleSpillMaxInterval currentTime); [|lia].
    cbn [next effects].
    destruct (IH (with_blackHole (blackHole s) s) Hrest Hzero)
      as (Heff & Hrun & Hlast).
    rewrite Heff, Hrun, Hlast. auto.
Qed.

End Properties.

(** ** Instances on the example supervisor *)

Lemma killServer_debounced_witness :
  let s' :=
    next (Example.run Example.config loaded
            (Example.boot ++ [CallKillServer 1700000100000 None None false])) in
  Example.step Example.config s'
    (CallKillServer 1700000104999 (Some "again") None false)
  = {| next := s'; effects := [];
       settled := [(KillServer, Return (Some restart_in_progress))] |}.
Proof.
  exact (proj1 (killServer_debounced Example.config Example.write Example.t
                  false "/fx/alpine/opt/cfx-server" "/fx/alpine" [] loaded
                  (Example.boot ++ [CallKillServer 1700000100000 None None false])
                  1700000100000 1700000104999 (Some "again") None false
                  eq_refl eq_refl)).
Defined.

Lemma spawnServer_validation_witness :
  spawnServer_resume Example.config Example.running VUndefined
    (Return {| errors := Some "line 3: unknown command";
               warnings := None; connectEndpoint := None |})
    Example.child 1700000000
  = (Example.running,
     [Console "error" (errors_header +:+ "line 3: unknown command")],
     Return (Some (errors_header +:+ "line 3: unknown command")), None).
Proof.
  destruct (proj1 (spawnServer_validation Example.config Example.running
                     VUndefined
                     {| errors := Some "line 3: unknown command";
                        warnings := None; connectEndpoint := None |}
                     Example.child 1700000000) eq_refl)
    as (text & Htext & Hresume).
  injection Htext as <-. exact Hresume.
Defined.

(** The validator's text does not come back as it is. *)
Lemma spawnServer_returns_header_and_errors :
  settled
    (Example.run Example.config loaded
       [CallSpawnServer (VBoolean true) "abcde";
        ValidatorSettled 0
          (Return {| errors := Some "line 3: unknown command";
                     warnings := None; connectEndpoint := None |})
          Example.child 1700000000])
  <> [(SpawnServer, Return (Some "line 3: unknown command"))].
Proof.
  vm_compute. discriminate.
Qed.

(** The second restart sleeps for the override again, not for the 750 ms
    of the configuration. *)
Lemma restartServer_reuses_override :
  List.filter is_sleep (effects (Example.run Example.hasty loaded Example.two_restarts))
  = [Sleep 250; Sleep 5000; Sleep 250; Sleep 5000]
  /\ server_restartSpawnDelayMs Example.hasty = 750.
Proof.
  split; vm_compute; reflexivity.
Qed.

Lemma restartServer_delay_persists_witness :
  exists before,
    effects
      (Example.step Example.hasty
         (next (Example.run Example.hasty
                  (next (Example.run Example.hasty loaded
                           (Example.boot ++ [SetRestartSpawnDelayOverride 5000])))
                  [CallRestartServer 1700000100000 None None]))
         (ShutdownNoticeElapsed 0 1700000101))
    = before ++ [Sleep 5000].
Proof.
  refine (proj2
            (proj2
               (restartServer_delay_persists Example.hasty Example.write
                  Example.t false "/fx/alpine/opt/cfx-server" "/fx/alpine" []
                  (next (Example.run Example.hasty loaded
                           (Example.boot ++ [SetRestartSpawnDelayOverride 5000])))
                  [CallRestartServer 1700000100000 None None]
                  0%nat 1700000101 "no reason provided" _)
               eq_refl eq_refl)).
  repeat constructor.
Defined.

Lemma history_append_only_witness :
  grows started (history Example.running)
    (history
       (runner
          (next (Example.run Example.config
                   (next (Example.run Example.config loaded Example.boot))
                   [CallKillServer 1700000100000 None None false;
                    ShutdownNoticeElapsed 0 1700000105;
                    ChildExit 0 1700000106])))).
Proof.
  refine (proj2
            (history_append_only Example.config Example.write Example.t false
               "/fx/alpine/opt/cfx-server" "/fx/alpine" []
               (next (Example.run Example.config loaded Example.boot))
               (ChildClose 0 None 1700000107)
               [CallKillServer 1700000100000 None None false;
                ShutdownNoticeElapsed 0 1700000105;
                ChildExit 0 1700000106] _ _)).
  - reflexivity.
  - repeat constructor.
Defined.

Lemma reachable_status_witness :
  exists status,
    getStatus (history Example.running) = Return status
    /\ live_label status.
Proof.
  destruct (proj2
              (reachable_status Example.config Example.write Example.t false
                 "/fx/alpine/opt/cfx-server" "/fx/alpine" []
                 (next (Example.run Example.config loaded Example.boot))
                 (reachable_step Example.config Example.write Example.t false
                    "/fx/alpine/opt/cfx-server" "/fx/alpine" [] _
                    (ValidatorSettled 0 Example.valid Example.child 1700000000)
                    (reachable_step Example.config Example.write Example.t
                       false "/fx/alpine/opt/cfx-server" "/fx/alpine" [] loaded
                       (CallSpawnServer (VBoolean true) "abcde")
                       (reachable_loaded _ _ _ _ _ _ _) I)
                    eq_refl)))
    as (status & Hstatus & Hlive & _).
  exists status. split; [exact Hstatus|exact Hlive].
Defined.

(** A spawn whose child got no process identifier throws after it has
    stored the child: the handle stays, with no record in the history.  A
    [killServer] that finds the supervisor so signals the child, clears the
    handle and returns the failure message. *)
Lemma killServer_after_failed_spawn :
  let o :=
    Example.run Example.config loaded
      [CallSpawnServer (VBoolean true) "abcde";
       ValidatorSettled 0 Example.valid Example.stillborn 1700000000;
       CallKillServer 1700000100000 None None false;
       ShutdownNoticeElapsed 0 1700000105] in
  settled o
  = [(SpawnServer,
      Throw ("Executon of " +:+ dq +:+ "/fx/alpine/opt/cfx-server/ld-musl-x86_64.so.1"
               +:+ dq +:+ " failed."));
     (KillServer, Return (Some could_not_kill))]
  /\ fxChild (runner (next o)) = None
  /\ history (runner (next o)) = [].
Proof.
  vm_compute. repeat split.
Qed.

(** C4. A spawn whose child got no process identifier leaves the handle
    with an empty history.  A [killServer] accepted on that state emits the
    shutdown notice and the announcement and sleeps for
    [max(5000, 250)]; after the sleep it signals the child and clears the
    handle, but the stamp of [kill] finds no last record: the failure
    message comes back, not [null], and none of the three cleanup
    collaborators is called. *)
Theorem killServer_fails_without_record :
  let go :=
    run Example.config Example.write Example.t_all false
      "/fx/alpine/opt/cfx-server" "/fx/alpine" [] in
  let s := next (go loaded (Example.failed_spawn "abcde" 1700000000)) in
  let o :=
    go s
      [CallKillServer 1700000100000 (Some "maintenance") (Some "admin") false;
       ShutdownNoticeElapsed 0 1700000105] in
  fxChild (runner s) = Some Example.stillborn
  /\ history (runner s) = []
  /\ effects o
     = [StdinWrite (Example.shutdown_notice +:+ nl);
        LogSystemCommand Example.shutdown_notice;
        SendAnnouncement "danger" "server_actions.stopping_discord";
        Sleep 5000;
        KillSignal Example.stillborn;
        Console "error" could_not_kill; ConsoleDir]
  /\ settled o = [(KillServer, Return (Some could_not_kill))]
  /\ fxChild (runner (next o)) = None
  /\ history (runner (next o)) = [].
Proof.
  vm_compute. repeat split.
Qed.

(** C8. The [kill] of a record is written twice.  A server is spawned and
    killed, which stamps [kill] on its record; a second spawn gets no
    process identifier, so it leaves its handle and no record; the
    [killServer] after it returns [null] and stamps [kill] again, on the
    record of the first server. *)
Theorem kill_stamped_twice :
  let first :=
    Example.run Example.config loaded
      (Example.boot
         ++ [CallKillServer 1700000100000 None None false;
             ShutdownNoticeElapsed 0 1700000105]) in
  let second :=
    Example.run Example.config (next first)
      (Example.failed_spawn "fghij" 1700000200
         ++ [CallKillServer 1700000300000 None None false;
             ShutdownNoticeElapsed 0 1700000305]) in
  history (runner (next first))
  = [{| pid := "4242";
        timestamps := {| start := At 1700000000; kill := At 1700000105;
                         exit := Absent; close := Absent |} |}]
  /\ settled second
     = [(SpawnServer,
         Throw ("Executon of " +:+ dq
                  +:+ "/fx/alpine/opt/cfx-server/ld-musl-x86_64.so.1"
                  +:+ dq +:+ " failed."));
        (KillServer, Return None)]
  /\ history (runner (next second))
     = [{| pid := "4242";
           timestamps := {| start := At 1700000000; kill := At 1700000305;
                            exit := Absent; close := Absent |} |}].
Proof.
  vm_compute. repeat split.
Qed.

(** A last record without [start] is projected by the first branches of
    [getStatus], whatever its other fields hold. *)
Lemma getStatus_without_start (curr : HistoryEntry) :
  is_absent (start (timestamps curr)) ->
  getStatus [curr]
  = Throw "This should NOT happen. Let's see how long people will take to find this...".
Proof.
  unfold is_absent, getStatus. cbn [last length]. intros ->. reflexivity.
Qed.

(** ** Stream noise is not rate limited *)

(** The time [chanEventBlackHole] compares with never moves: the assignment
    after the log is to another name. *)
Lemma chanEventBlackHole_keeps_spew_time (m : BlackHole) (currentTime : Z) :
  lastBlackHoleSpewTime (chanEventBlackHole m currentTime).1.1
  = lastBlackHoleSpewTime m.
Proof.
  unfold chanEventBlackHole.
  destruct (blackHoleSpillMaxInterval <? currentTime - lastBlackHoleSpewTime m);
    reflexivity.
Qed.

(** C9. Two residual stream events one millisecond apart leave the
    supervisor as it was, and each of them writes the diagnostic entry,
    before the assignment to the undeclared [lastLogTime] raises: the
    5 second window holds two entries, not at most one. *)
Theorem chanEventBlackHole_logs_each_event :
  let o :=
    Example.run Example.config
      (next (Example.run Example.config loaded Example.boot))
      [StreamNoise 1700000000000; StreamNoise 1700000000001] in
  runner (next o) = Example.running
  /\ effects o
     = [Console "verbose.error" "StdIo unexpected event:"; ConsoleDir;
        Uncaught "lastLogTime is not defined";
        Console "verbose.error" "StdIo unexpected event:"; ConsoleDir;
        Uncaught "lastLogTime is not defined"]
  /\ lastBlackHoleSpewTime (blackHole (next o)) = 0.
Proof.
  vm_compute. repeat split.
Qed.

(** * Further properties *)

(** ** What reaches the child's standard input *)

Lemma all_chars_append p (a b : string) :
  all_chars p (a +:+ b) = all_chars p a && all_chars p b.
Proof.
  induction a as [|x a IH]; [reflexivity|].
  rewrite append_cons. cbn [all_chars]. now rewrite IH, andb_assoc.
Qed.

Lemma has_no_append c (a b : string) :
  has_no c a = true -> has_no c b = true -> has_no c (a +:+ b) = true.
Proof.
  unfold has_no. intros Ha Hb. now rewrite all_chars_append, Ha, Hb.
Qed.

Lemma escape_char_clean (c : ascii) :
  has_no quote_char (Encoder.escape_char c) = true
  /\ has_no newline_char (Encoder.escape_char c) = true.
Proof.
  unfold Encoder.escape_char.
  destruct (Ascii.eqb c quote_char) eqn:Hq; [split; reflexivity|].
  destruct (Ascii.eqb c newline_char) eqn:Hn; [split; reflexivity|].
  unfold has_no. cbn [all_chars]. now rewrite Hq, Hn.
Qed.

Lemma escape_clean (x : string) :
  has_no quote_char (Encoder.escape x) = true
  /\ has_no newline_char (Encoder.escape x) = true.
Proof.
  induction x as [|c x [IHq IHn]]; [split; reflexivity|].
  cbn [Encoder.escape]. destruct (escape_char_clean c) as [Hq Hn].
  split; now apply has_no_append.
Qed.

(** X1. Whatever string goes in, what [sanitizeArgString] gives back holds
    no double quote and no newline: the text put between the quotes of an
    argument cannot close them or end the line. *)
Theorem sanitizeArgString_clean (x : string) :
  has_no quote_char (sanitizeArgString x) = true
  /\ has_no newline_char (sanitizeArgString x) = true.
Proof.
  rewrite sanitizeArgString_escape. apply escape_clean.
Qed.

Lemma word_char_not_newline (c : ascii) :
  is_word_char c = true -> Ascii.eqb c newline_char = false.
Proof.
  destruct c as [[] [] [] [] [] [] [] []]; vm_compute; congruence.
Qed.

Lemma word_no_newline (s : string) :
  all_chars is_word_char s = true -> has_no newline_char s = true.
Proof.
  unfold has_no. induction s as [|c s IH]; [reflexivity|].
  cbn [all_chars]. intros [Hc Hs]%andb_prop.
  now rewrite (word_char_not_newline c Hc), IH.
Qed.

Lemma uint_no_newline (d : Decimal.uint) :
  has_no newline_char (DecimalString.NilEmpty.string_of_uint d) = true.
Proof.
  unfold has_no. induction d; cbn; auto.
Qed.

Lemma Z_toString_no_newline (z : Z) : has_no newline_char (Z_toString z) = true.
Proof.
  unfold Z_toString, DecimalString.NilZero.string_of_int,
    DecimalString.NilZero.string_of_uint.
  destruct (Z.to_int z) as [d|d]; destruct d;
    try reflexivity; try apply uint_no_newline;
    apply (has_no_append _ "-" _ eq_refl), uint_no_newline.
Qed.

Lemma zeros_no_newline (n : nat) : has_no newline_char (zeros n) = true.
Proof.
  induction n as [|n IH]; [reflexivity|exact IH].
Qed.

Lemma exponential_no_newline (s q : Z) :
  has_no newline_char (exponential s q) = true.
Proof.
  unfold exponential. pose proof (Z_toString_no_newline s) as H.
  destruct (Z_toString s) as [|d rest]; [reflexivity|].
  unfold has_no in H. cbn [all_chars] in H.
  apply andb_prop in H as [Hd Hrest].
  assert (Hfirst : has_no newline_char (String d EmptyString) = true).
  { unfold has_no. cbn [all_chars]. now rewrite Hd. }
  destruct rest as [|a rest];
    repeat apply has_no_append; try reflexivity; try exact Hfirst;
    try exact Hrest; apply Z_toString_no_newline.
Qed.

Lemma large_toString_no_newline (z : Z) :
  has_no newline_char (large_toString z) = true.
Proof.
  unfold large_toString. destruct (shortest z) as [s q].
  destruct (digits s + q <=? 21).
  - apply has_no_append; [apply Z_toString_no_newline|apply zeros_no_newline].
  - apply exponential_no_newline.
Qed.

Lemma integral_toString_no_newline (z : Z) :
  has_no newline_char (integral_toString z) = true.
Proof.
  unfold integral_toString.
  destruct (Z.abs z <? 2 ^ 53); [apply Z_toString_no_newline|].
  destruct (z <? 0); [apply (has_no_append newline_char "-" _ eq_refl)|];
    apply large_toString_no_newline.
Qed.

Lemma stringified_no_newline (j : json) (text : string) :
  stringified j = Return text -> has_no newline_char text = true.
Proof.
  unfold stringified. destruct (JSON_stringify j); [|discriminate].
  cbn [bind]. intros [= <-]. rewrite sanitizeArgString_escape.
  repeat apply has_no_append; try reflexivity. apply escape_clean.
Qed.

(** One turn of the loop of [sendCommand] adds no newline. *)
Lemma sendCommand_arg_no_newline (arg : value) (text : string) :
  sendCommand_arg arg = Return text -> has_no newline_char text = true.
Proof.
  destruct arg as [| | b | n | s | items | fields | [j|]]; cbn [sendCommand_arg];
    try discriminate; try apply stringified_no_newline.
  - destruct (Number_isInteger n); [|discriminate]. intros [= <-].
    destruct n as [num den| |[]]; try reflexivity.
    apply integral_toString_no_newline.
  - destruct (is_empty s) eqn:Hempty; [|destruct (test_word s) eqn:Hword];
      intros [= <-].
    + reflexivity.
    + apply word_no_newline. destruct s; [discriminate|exact Hword].
    + rewrite sanitizeArgString_escape.
      repeat apply has_no_append; try reflexivity. apply escape_clean.
Qed.

(** The loop of [sendCommand] adds no newline to the line it builds. *)
Lemma sendCommand_args_no_newline (cmdArgs : list value) :
  forall rawInput line,
    has_no newline_char rawInput = true ->
    sendCommand_args rawInput cmdArgs = Return line ->
    has_no newline_char line = true.
Proof.
  induction cmdArgs as [|arg rest IH]; intros rawInput line Hraw Hline.
  - injection Hline as <-. exact Hraw.
  - cbn [sendCommand_args] in Hline.
    destruct (sendCommand_arg arg) as [text|] eqn:Harg; [|discriminate].
    cbn [bind] in Hline. eapply IH; [|exact Hline].
    repeat apply has_no_append; try reflexivity; try assumption.
    eapply sendCommand_arg_no_newline, Harg.
Qed.

(** X2. All [sendCommand] ever writes to the child's standard input is one
    line: the data of a write is a text without any newline followed by a
    single newline, whatever the name and the arguments hold. *)
Theorem sendCommand_writes_one_line
    (stdin_write : string -> completion bool) (this : FxRunner)
    (cmdName : string) (cmdArgs : list value) (author : value)
    (data : string) :
  In (StdinWrite data) (sendCommand stdin_write this cmdName cmdArgs author).1 ->
  exists line, data = line +:+ nl /\ has_no newline_char line = true.
Proof.
  unfold sendCommand.
  destruct (fxChild this) as [child|] eqn:Hchild; [|intros []].
  destruct (is_empty cmdName); [intros []|].
  destruct (negb (test_word cmdName)); [intros []|].
  destruct (sendCommand_args (sanitizeArgString cmdName) cmdArgs)
    as [rawInput|message] eqn:Hline; [|intros []].
  assert (Hclean : has_no newline_char rawInput = true).
  { eapply sendCommand_args_no_newline; [|exact Hline].
    rewrite sanitizeArgString_escape. apply escape_clean. }
  unfold sendRawCommand. rewrite Hchild.
  assert (Hwrite : forall logged : list effect,
             Forall (fun e => forall text, e <> StdinWrite text) logged ->
             In (StdinWrite data) (StdinWrite (rawInput +:+ nl) :: logged) ->
             exists line, data = line +:+ nl /\ has_no newline_char line = true).
  { intros logged Hlogged [H|H]; [injection H as <-; eauto|].
    rewrite Forall_forall in Hlogged. apply list_elem_of_In in H.
    now destruct (Hlogged _ H data). }
  destruct author as [| | b | n | a | items | fields | serialized];
    try (intros []);
    destruct (stdin_write (rawInput +:+ nl)) as [success|message];
    cbn [fst]; apply Hwrite; repeat constructor; try discriminate;
    destruct (is_empty a); discriminate.
Qed.

Lemma sendCommand_writes_one_line_witness :
  exists line,
    "say " +:+ dq +:+ "two lines" +:+ dq +:+ " -7" +:+ nl = line +:+ nl
    /\ has_no newline_char line = true.
Proof.
  apply (sendCommand_writes_one_line Example.write Example.running "say"
           [VString ("two" +:+ nl +:+ "lines"); VNumber (int (-7))] VUndefined).
  left. reflexivity.
Defined.

(** ** Which commands raise *)

Lemma sendCommand_args_throws (cmdArgs : list value) :
  forall rawInput message,
    sendCommand_args rawInput cmdArgs = Throw message ->
    Exists (fun v => Encoder.accepted v = false) cmdArgs.
Proof.
  induction cmdArgs as [|arg rest IH]; intros rawInput message H;
    [discriminate|].
  destruct (Encoder.accepted arg) eqn:Harg; [|now left].
  right. cbn [sendCommand_args] in H.
  rewrite (sendCommand_arg_accepted _ Harg) in H. cbn [bind] in H. eauto.
Qed.

Lemma sendRawCommand_returns (stdin_write : string -> completion bool)
    (this : FxRunner) (command : string) (author : value) :
  is_author author = true ->
  exists success,
    (sendRawCommand stdin_write this command author).2 = Return success.
Proof.
  unfold sendRawCommand.
  destruct author; try discriminate; intros _;
    (destruct (fxChild this); [|eauto]);
    destruct (stdin_write (command +:+ nl)); eauto.
Qed.

Lemma sendRawCommand_throws (stdin_write : string -> completion bool)
    (this : FxRunner) (command : string) (author : value) :
  is_author author = false ->
  sendRawCommand stdin_write this command author
  = ([], Throw "Expected author as String!").
Proof.
  destruct author; try discriminate; reflexivity.
Qed.

(** X3. [sendCommand] throws only for what it and [sendRawCommand] check:
    when it throws, a child process exists, nothing has been written or
    logged, and the name is empty or holds a character that is not a word
    character, or one of the arguments is not a string, an object that has a
    JSON text or an integral number, or the author is neither [undefined]
    nor a string.  A failing write never makes it throw. *)
Theorem sendCommand_throws_only_invalid
    (stdin_write : string -> completion bool) (this : FxRunner)
    (cmdName : string) (cmdArgs : list value) (author : value)
    (sent : list effect) (message : string) :
  sendCommand stdin_write this cmdName cmdArgs author = (sent, Throw message) ->
  sent = []
  /\ fxChild this <> None
  /\ (test_word cmdName = false
      \/ Exists (fun v => Encoder.accepted v = false) cmdArgs
      \/ is_author author = false).
Proof.
  unfold sendCommand.
  destruct (fxChild this) as [child|] eqn:Hchild; [|discriminate].
  destruct (is_empty cmdName) eqn:Hempty.
  { intros [= <- _]. destruct cmdName; [|discriminate]. auto. }
  destruct (test_word cmdName) eqn:Hword; cbn [negb].
  2: { intros [= <- _]. auto. }
  destruct (sendCommand_args (sanitizeArgString cmdName) cmdArgs)
    as [rawInput|refused] eqn:Hline.
  - intros H. destruct (is_author author) eqn:Hauthor.
    + destruct (sendRawCommand_returns stdin_write this rawInput author Hauthor)
        as [success Hret].
      rewrite H in Hret. discriminate Hret.
    + rewrite (sendRawCommand_throws _ _ _ _ Hauthor) in H.
      injection H as <- _. auto.
  - intros [= <- _]. repeat split; [discriminate|].
    right. left. eapply sendCommand_args_throws, Hline.
Qed.

Lemma sendCommand_throws_only_invalid_witness :
  test_word "say" = false
  \/ Exists (fun v => Encoder.accepted v = false)
       [VString "hi"; VObject [("self", JCircular)]]
  \/ is_author (VNumber (int 7)) = false.
Proof.
  refine (proj2 (proj2
            (sendCommand_throws_only_invalid Example.write Example.running
               "say" [VString "hi"; VObject [("self", JCircular)]]
               (VNumber (int 7)) []
               "Converting circular structure to JSON" _))).
  reflexivity.
Defined.

Section Events.

Variable stdin_write : string -> completion bool.


(** ** Pushing the convars *)

Lemma sendCommand_valid (this : FxRunner) (cmdName : string)
    (cmdArgs : list value) (author : value) :
  test_word cmdName = true ->
  Forall (fun v => Encoder.accepted v = true) cmdArgs ->
  is_author author = true ->
  sendCommand stdin_write this cmdName cmdArgs author
  = sendRawCommand stdin_write this
      (Encoder.encode_command_as Number_toString cmdName cmdArgs) author.
Proof.
  intros Hname Hargs Hauthor. unfold sendCommand.
  rewrite (sendCommand_line _ _ Hname Hargs), Hname.
  destruct cmdName; [discriminate|]. cbn [is_empty negb].
  unfold sendRawCommand.
  destruct (fxChild this); [reflexivity|].
  now destruct author.
Qed.

Lemma sendCommand_invalid (this : FxRunner) (cmdName : string)
    (cmdArgs : list value) (author : value) :
  fxChild this <> None ->
  test_word cmdName = false
  \/ Exists (fun v => Encoder.accepted v = false) cmdArgs ->
  exists message,
    sendCommand stdin_write this cmdName cmdArgs author = ([], Throw message).
Proof.
  intros Hchild Hbad. unfold sendCommand.
  destruct (fxChild this) as [child|]; [|congruence].
  destruct (is_empty cmdName); [eauto|].
  destruct (test_word cmdName); cbn [negb]; [|eauto].
  destruct Hbad as [Hbad|Hbad]; [discriminate|].
  destruct (sendCommand_args_refused _ (sanitizeArgString cmdName) Hbad)
    as [message ->].
  eauto.
Qed.

Lemma valid_convar_true (c : string * value * value) :
  valid_convar c = true ->
  test_word c.1.1 = true
  /\ Forall (fun v => Encoder.accepted v = true) [c.1.2; c.2].
Proof.
  unfold valid_convar. intros [[H1 H2]%andb_prop H3]%andb_prop.
  split; [exact H1|]. repeat constructor; assumption.
Qed.

Lemma valid_convar_false (c : string * value * value) :
  valid_convar c = false ->
  test_word c.1.1 = false
  \/ Exists (fun v => Encoder.accepted v = false) [c.1.2; c.2].
Proof.
  unfold valid_convar.
  destruct (test_word c.1.1); [|auto].
  destruct (Encoder.accepted c.1.2) eqn:H2; [|right; left; exact H2].
  destruct (Encoder.accepted c.2) eqn:H3; [discriminate|].
  intros _. right. right. left. exact H3.
Qed.

Lemma updateMutableConvars_loop_valid (this : FxRunner)
    (convarList : list (string * value * value)) :
  Forall (fun c => valid_convar c = true) convarList ->
  updateMutableConvars_loop stdin_write this convarList
  = (concat
       (map (fun c => written stdin_write this (convar_line c)) convarList),
     Return tt).
Proof.
  induction 1 as [|[[set convar] val] rest Hc _ IH]; [reflexivity|].
  cbn [updateMutableConvars_loop map concat].
  destruct (valid_convar_true _ Hc) as [Hname Hargs]. cbn [fst snd] in *.
  rewrite (sendCommand_valid this set [convar; val] VUndefined Hname Hargs eq_refl), IH.
  unfold written, convar_line. cbn [fst snd].
  destruct (sendRawCommand_returns stdin_write this
              (Encoder.encode_command_as Number_toString set [convar; val])
              VUndefined eq_refl) as [success Hret].
  destruct (sendRawCommand stdin_write this
              (Encoder.encode_command_as Number_toString set [convar; val])
              VUndefined) as [sent result].
  cbn [snd] in Hret. subst result. reflexivity.
Qed.

Lemma updateMutableConvars_loop_app (this : FxRunner)
    (good rest : list (string * value * value)) :
  Forall (fun c => valid_convar c = true) good ->
  updateMutableConvars_loop stdin_write this (good ++ rest)
  = (concat (map (fun c => written stdin_write this (convar_line c)) good)
       ++ (updateMutableConvars_loop stdin_write this rest).1,
     (updateMutableConvars_loop stdin_write this rest).2).
Proof.
  induction 1 as [|[[set convar] val] good Hc _ IH].
  - cbn. now destruct (updateMutableConvars_loop stdin_write this rest).
  - cbn [app updateMutableConvars_loop map concat].
    destruct (valid_convar_true _ Hc) as [Hname Hargs]. cbn [fst snd] in *.
    rewrite (sendCommand_valid this set [convar; val] VUndefined Hname Hargs eq_refl), IH.
    unfold written at 2, convar_line at 2. cbn [fst snd].
    destruct (sendRawCommand_returns stdin_write this
                (Encoder.encode_command_as Number_toString set [convar; val])
                VUndefined eq_refl)
      as [success Hret].
    destruct (sendRawCommand stdin_write this
                (Encoder.encode_command_as Number_toString set [convar; val])
                VUndefined)
      as [sent result].
    cbn [snd] in Hret. subst result. cbn [fst snd].
    now rewrite app_assoc.
Qed.

(** The line of the [configChanged] event. *)
Lemma configChanged_line (this : FxRunner) :
  sendEvent stdin_write this "configChanged" (VObject [])
  = (written stdin_write this
       ("txaEvent configChanged " +:+ dq +:+ "{}" +:+ dq),
     (sendRawCommand stdin_write this
        ("txaEvent configChanged " +:+ dq +:+ "{}" +:+ dq) VUndefined).2).
Proof.
  unfold sendEvent. cbn [is_empty sendEvent_data].
  rewrite (sendCommand_valid this "txaEvent"
             [VString "configChanged"; VObject []] VUndefined eq_refl
             ltac:(repeat constructor) eq_refl).
  change (Encoder.encode_command_as Number_toString "txaEvent"
            [VString "configChanged"; VObject []])
    with ("txaEvent configChanged " +:+ dq +:+ "{}" +:+ dq).
  unfold written.
  destruct (sendRawCommand_returns stdin_write this
              ("txaEvent configChanged " +:+ dq +:+ "{}" +:+ dq) VUndefined
              eq_refl)
    as [success Hret].
  destruct (sendRawCommand stdin_write this
              ("txaEvent configChanged " +:+ dq +:+ "{}" +:+ dq) VUndefined)
    as [sent result].
  cbn [snd] in Hret. subst result. reflexivity.
Qed.

(** X5. When every triple has a name of word characters and two accepted
    arguments, [updateMutableConvars] logs, sends one command per triple in
    the order of the list, then the [configChanged] event, and returns what
    the write of the event returned. *)
Theorem updateMutableConvars_sends_all (this : FxRunner)
    (convarList : list (string * value * value)) :
  Forall (fun c => valid_convar c = true) convarList ->
  updateMutableConvars stdin_write this convarList
  = (updating_convars
       :: concat
            (map (fun c => written stdin_write this (convar_line c)) convarList)
       ++ written stdin_write this
            ("txaEvent configChanged " +:+ dq +:+ "{}" +:+ dq),
     match
       (sendRawCommand stdin_write this
          ("txaEvent configChanged " +:+ dq +:+ "{}" +:+ dq) VUndefined).2
     with
     | Return success => success
     | Throw _ => false
     end).
Proof.
  intros Hvalid. unfold updateMutableConvars.
  rewrite (updateMutableConvars_loop_valid this convarList Hvalid),
    configChanged_line.
  destruct (sendRawCommand_returns stdin_write this
              ("txaEvent configChanged " +:+ dq +:+ "{}" +:+ dq) VUndefined
              eq_refl)
    as [success ->].
  reflexivity.
Qed.

(** X6. With a child process, [updateMutableConvars] stops at the first
    triple [sendCommand] refuses: the commands of the triples before it have
    been sent, those after it and the [configChanged] event are not, and it
    returns [false].  With no child process it sends nothing and returns
    [false], whatever the list holds. *)
Theorem updateMutableConvars_stops_at_invalid (this : FxRunner)
    (good rest : list (string * value * value))
    (bad : string * value * value) :
  (fxChild this = None ->
   updateMutableConvars stdin_write this (good ++ bad :: rest)
   = ([updating_convars], false))
  /\ (fxChild this <> None ->
      Forall (fun c => valid_convar c = true) good ->
      valid_convar bad = false ->
      updateMutableConvars stdin_write this (good ++ bad :: rest)
      = (updating_convars
           :: concat
                (map (fun c => written stdin_write this (convar_line c)) good)
           ++ convars_failed,
         false)).
Proof.
  split.
  - intros Hchild. unfold updateMutableConvars.
    assert (Hloop : forall l,
               updateMutableConvars_loop stdin_write this l = ([], Return tt)).
    { induction l as [|[[set convar] val] l IH]; [reflexivity|].
      cbn [updateMutableConvars_loop]. unfold sendCommand.
      now rewrite Hchild, IH. }
    rewrite Hloop. unfold sendEvent, sendCommand. cbn [is_empty].
    now rewrite Hchild.
  - intros Hchild Hgood Hbad. unfold updateMutableConvars.
    rewrite (updateMutableConvars_loop_app this good (bad :: rest) Hgood).
    destruct bad as [[set convar] val]. cbn [updateMutableConvars_loop].
    destruct (sendCommand_invalid this set [convar; val] VUndefined Hchild
                (valid_convar_false _ Hbad)) as [message ->].
    cbn [fst snd]. now rewrite app_nil_r.
Qed.

End Events.


Lemma updateMutableConvars_sends_all_witness :
  updateMutableConvars Example.write Example.running
    [("setr", VString "txAdmin-locale", VString "en");
     ("set", VString "txAdmin-hideDefaultAnnouncement", VString "false")]
  = ([updating_convars;
      StdinWrite
        ("setr " +:+ dq +:+ "txAdmin-locale" +:+ dq +:+ " en" +:+ nl);
      LogSystemCommand ("setr " +:+ dq +:+ "txAdmin-locale" +:+ dq +:+ " en");
      StdinWrite
        ("set " +:+ dq +:+ "txAdmin-hideDefaultAnnouncement" +:+ dq
           +:+ " false" +:+ nl);
      LogSystemCommand
        ("set " +:+ dq +:+ "txAdmin-hideDefaultAnnouncement" +:+ dq +:+ " false");
      StdinWrite ("txaEvent configChanged " +:+ dq +:+ "{}" +:+ dq +:+ nl);
      LogSystemCommand ("txaEvent configChanged " +:+ dq +:+ "{}" +:+ dq)],
     true).
Proof.
  rewrite (updateMutableConvars_sends_all Example.write Example.running
             [("setr", VString "txAdmin-locale", VString "en");
              ("set", VString "txAdmin-hideDefaultAnnouncement", VString "false")]
             ltac:(repeat constructor)).
  reflexivity.
Defined.

Lemma updateMutableConvars_stops_at_invalid_witness :
  updateMutableConvars Example.write Example.running
    ([("setr", VString "txAdmin-locale", VString "en")]
       ++ ("set value", VString "a", VString "b")
       :: [("set", VString "c", VString "d")])
  = ([updating_convars;
      StdinWrite
        ("setr " +:+ dq +:+ "txAdmin-locale" +:+ dq +:+ " en" +:+ nl);
      LogSystemCommand ("setr " +:+ dq +:+ "txAdmin-locale" +:+ dq +:+ " en");
      Console "verbose.error" "Error updating FXServer ConVars"; ConsoleDir],
     false).
Proof.
  rewrite (proj2 (updateMutableConvars_stops_at_invalid Example.write
                    Example.running
                    [("setr", VString "txAdmin-locale", VString "en")]
                    [("set", VString "c", VString "d")]
                    ("set value", VString "a", VString "b"))
             ltac:(vm_compute; discriminate) ltac:(repeat constructor) eq_refl).
  reflexivity.
Defined.

(** ** The status, for any history *)



(** X8. [getStatus] throws for one shape of history only: a single record
    whose [start] is not set.  A history of two records or more, and an empty
    one, always gets a label. *)
Theorem getStatus_throws_only_alone (h : list HistoryEntry) (message : string) :
  getStatus h = Throw message ->
  exists curr, h = [curr] /\ is_absent (start (timestamps curr)).
Proof.
  unfold getStatus. destruct (last h) as [curr|] eqn:Hlast; [|discriminate].
  destruct (truthy (start (timestamps curr))) eqn:Hstart; cbn [negb andb].
  - destruct (truthy (kill (timestamps curr))).
    + destruct (negb (length (pending_keys curr) =? 0)%nat); discriminate.
    + destruct (truthy (exit (timestamps curr))),
        (truthy (close (timestamps curr))); discriminate.
  - destruct (Nat.eqb_spec (length h) 1) as [Hone|Hmore].
    + intros _. exists curr. split; [|exact Hstart].
      destruct h as [|x [|y h]]; try discriminate.
      cbn in Hlast. congruence.
    + assert (Hlen : (length h - 2 < length h)%nat).
      { destruct h; [discriminate|]. cbn [length] in *. lia. }
      apply lookup_lt_is_Some in Hlen as [older Holder]. rewrite Holder.
      destruct (length (pending_keys curr) =? 0)%nat; discriminate.
Qed.

Lemma getStatus_throws_only_alone_witness :
  exists curr,
    [{| pid := "4242";
        timestamps := {| start := Absent; kill := At 1700000009;
                         exit := Absent; close := Absent |} |}] = [curr]
    /\ is_absent (start (timestamps curr)).
Proof.
  exact (getStatus_throws_only_alone
           [{| pid := "4242";
               timestamps := {| start := Absent; kill := At 1700000009;
                                exit := Absent; close := Absent |} |}]
           "This should NOT happen. Let's see how long people will take to find this..."
           eq_refl).
Defined.

(** ** The supervisor between its operations *)

Section Lifecycle.

Variable txConfig : TxConfig.
Variable stdin_write : string -> completion bool.
Variable translator_t : string -> string -> string -> string.
Variable isWindows : bool.
Variable fxServerPath alpinePath : string.
Variable cmdArgs : list string.

Local Abbreviation spawn_begin :=
  (spawnServer_begin txConfig isWindows fxServerPath alpinePath cmdArgs).
Local Abbreviation spawn_resume := (spawnServer_resume txConfig).
Local Abbreviation kill_begin := (killServer_begin txConfig stdin_write translator_t).
Local Abbreviation step_ :=
  (step txConfig stdin_write translator_t isWindows fxServerPath alpinePath cmdArgs).
Local Abbreviation run_ :=
  (run txConfig stdin_write translator_t isWindows fxServerPath alpinePath cmdArgs).
Local Abbreviation reachable_ :=
  (reachable txConfig stdin_write translator_t isWindows fxServerPath alpinePath
     cmdArgs).
Local Abbreviation step_grows_ :=
  (step_grows txConfig stdin_write translator_t isWindows fxServerPath alpinePath
     cmdArgs).

Lemma with_history_same (r : FxRunner) : with_history (history r) r = r.
Proof. destruct r; reflexivity. Qed.

(** X9. The uptime counts from the [start] of the last record, and only a
    new record moves that: after any event that leaves the history at its
    length (a kill stamp, an exit, a close among them) [getUptime] gives, for
    the same reading of the clock, what it gave before.  It goes on counting
    after the server was killed or has exited. *)
Theorem getUptime_keeps_baseline (s : System) (e : event) (now : Z) :
  clock_ok e ->
  length (history (runner (next (step_ s e)))) = length (history (runner s)) ->
  getUptime (history (runner (next (step_ s e)))) now
  = getUptime (history (runner s)) now.
Proof.
  intros Hclock Hlen.
  destruct (step_grows_ s e Hclock) as (kept & added & Heq & Hkept & _).
  rewrite Heq in *. rewrite length_app in Hlen.
  pose proof (Forall2_length _ _ _ Hkept) as Hsame.
  destruct added; [|cbn [length] in Hlen; lia].
  rewrite app_nil_r. unfold getUptime.
  destruct (Forall2_last _ _ _ Hkept) as [x y (_ & Hstart & _)|]; [|reflexivity].
  now rewrite Hstart.
Qed.

(** What the [exit] listener of index [i] leaves. *)
Lemma on_exit_only_its_record (s : System) (i : nat) (now : Z) :
  let o := step_ s (ChildExit i now) in
  tasks (next o) = tasks s
  /\ listeners (next o) = listeners s
  /\ runner (next o) = with_history (history (runner (next o))) (runner s)
  /\ (forall j, j <> i ->
        history (runner (next o)) !! j = history (runner s) !! j)
  /\ (forall e, listening s i = true ->
        history (runner s) !! i = Some e ->
        history (runner (next o)) !! i = Some (set_exit now e)
        /\ forall t0, start (timestamps e) = At t0 ->
             (In early_exit_warning (effects o) <-> now - t0 <= 5)).
Proof.
  cbn [step]. unfold on_exit.
  destruct (listening s i) eqn:Hlisten;
    [destruct (history (runner s) !! i) as [e|] eqn:He|].
  - cbn [next runner tasks listeners with_runner with_history history effects].
    split; [reflexivity|]. split; [reflexivity|]. split; [reflexivity|].
    split; [intros j Hj; now apply list_lookup_alter_ne, not_eq_sym|].
    intros e' _ [= <-]. split.
    + rewrite list_lookup_alter_eq, He. reflexivity.
    + intros t0 Ht0. unfold exited_early.
      cbn [set_exit timestamps exit start]. rewrite Ht0.
      unfold early_exit_warning.
      destruct (Z.leb_spec (now - t0) 5) as [Hle|Hgt]; cbn; split; auto; try lia.
      intros [H|[H|[H|[]]]]; discriminate H.
  - cbn [next unchanged]. rewrite with_history_same.
    repeat split; try reflexivity; discriminate.
  - cbn [next unchanged]. rewrite with_history_same.
    repeat split; try reflexivity; discriminate.
Qed.

(** What the [close] listener of index [i] leaves. *)
Lemma on_close_only_its_record (s : System) (i : nat) (code : option N)
    (now : Z) :
  let o := step_ s (ChildClose i code now) in
  tasks (next o) = tasks s
  /\ listeners (next o) = listeners s
  /\ runner (next o) = with_history (history (runner (next o))) (runner s)
  /\ (forall j, j <> i ->
        history (runner (next o)) !! j = history (runner s) !! j)
  /\ (forall e, listening s i = true ->
        history (runner s) !! i = Some e ->
        history (runner (next o)) !! i = Some (set_close now e)).
Proof.
  cbn [step]. unfold on_close.
  destruct (listening s i) eqn:Hlisten;
    [destruct (history (runner s) !! i) as [e|] eqn:He|].
  - cbn [next runner tasks listeners with_runner with_history history].
    split; [reflexivity|]. split; [reflexivity|]. split; [reflexivity|].
    split; [intros j Hj; now apply list_lookup_alter_ne, not_eq_sym|].
    intros e' _ [= <-]. rewrite list_lookup_alter_eq, He. reflexivity.
  - cbn [next unchanged]. rewrite with_history_same.
    repeat split; try reflexivity; discriminate.
  - cbn [next unchanged]. rewrite with_history_same.
    repeat split; try reflexivity; discriminate.
Qed.

(** X10. The [exit] and [close] listeners of a spawn write to the record
    whose index they captured and to nothing else: every other record, the
    child handle, the waiting operations and all other fields of the
    supervisor are as before, even when a newer server has been spawned since.
    The exit listener schedules its 'didn't start' warning exactly when the
    exit comes within 5 seconds of the record's start. *)
Theorem listeners_write_their_record (s : System) (i : nat)
    (code : option N) (now : Z) :
  (let o := step_ s (ChildExit i now) in
   tasks (next o) = tasks s
   /\ listeners (next o) = listeners s
   /\ runner (next o) = with_history (history (runner (next o))) (runner s)
   /\ (forall j, j <> i ->
         history (runner (next o)) !! j = history (runner s) !! j)
   /\ (forall e, listening s i = true ->
         history (runner s) !! i = Some e ->
         history (runner (next o)) !! i = Some (set_exit now e)
         /\ forall t0, start (timestamps e) = At t0 ->
              (In early_exit_warning (effects o) <-> now - t0 <= 5)))
  /\ (let o := step_ s (ChildClose i code now) in
      tasks (next o) = tasks s
      /\ listeners (next o) = listeners s
      /\ runner (next o) = with_history (history (runner (next o))) (runner s)
      /\ (forall j, j <> i ->
            history (runner (next o)) !! j = history (runner s) !! j)
      /\ (forall e, listening s i = true ->
            history (runner s) !! i = Some e ->
            history (runner (next o)) !! i = Some (set_close now e))).
Proof.
  split; [apply on_exit_only_its_record|apply on_close_only_its_record].
Qed.

(** X11. In every state the supervisor reaches, a listener that is attached
    finds the record it captured: an [exit] or [close] event never indexes
    past the history, and stamps the reading on that record. *)
Theorem listeners_find_their_record (s : System) (i : nat)
    (code : option N) (now : Z) :
  reachable_ s ->
  listening s i = true ->
  exists e,
    history (runner s) !! i = Some e
    /\ history (runner (next (step_ s (ChildExit i now)))) !! i
       = Some (set_exit now e)
    /\ history (runner (next (step_ s (ChildClose i code now)))) !! i
       = Some (set_close now e).
Proof.
  intros Hreach Hlisten.
  pose proof (reachable_listeners _ _ _ _ _ _ _ s Hreach) as Hrange.
  unfold listening in Hlisten. apply bool_decide_eq_true in Hlisten.
  rewrite Forall_forall in Hrange. specialize (Hrange i Hlisten).
  apply lookup_lt_is_Some in Hrange as [e He]. exists e.
  split; [exact He|]. split.
  - apply on_exit_only_its_record; [|exact He].
    unfold listening. now apply bool_decide_eq_true.
  - apply on_close_only_its_record; [|exact He].
    unfold listening. now apply bool_decide_eq_true.
Qed.

(** The events a child raises leave everything but the history. *)
Lemma child_event_keeps (s : System) (e : event) :
  child_event e = true ->
  fxChild (runner (next (step_ s e))) = fxChild (runner s)
  /\ tasks (next (step_ s e)) = tasks s.
Proof.
  destruct e; try discriminate; intros _.
  - destruct (on_close_only_its_record s historyIndex code now)
      as (Ht & _ & Hr & _).
    split; [|exact Ht]. cbv zeta in Hr. now rewrite Hr.
  - destruct (on_exit_only_its_record s historyIndex now)
      as (Ht & _ & Hr & _).
    split; [|exact Ht]. cbv zeta in Hr. now rewrite Hr.
  - cbn [step]. destruct (listening s historyIndex); [|auto].
    destruct (history (runner s) !! historyIndex); auto.
  - cbn [step]. destruct (listening s historyIndex); [|auto].
    destruct (history (runner s) !! historyIndex); auto.
  - cbn [step].
    destruct (chanEventBlackHole (blackHole s) currentTime) as [[m effs] []];
      auto.
Qed.

Lemma child_events_keep (es : list event) : forall s : System,
  Forall (fun e => child_event e = true) es ->
  fxChild (runner (next (run_ s es))) = fxChild (runner s)
  /\ tasks (next (run_ s es)) = tasks s.
Proof.
  induction es as [|e es IH]; intros s Hes; cbn [run next]; [auto|].
  inversion Hes as [|? ? He Hrest]; subst.
  destruct (IH (next (step_ s e)) Hrest) as [-> ->].
  now apply child_event_keeps.
Qed.

(** A turn of the event loop that clears the handle is the continuation of
    a [killServer] after its sleep. *)
Lemma handle_cleared_by_kill (s : System) (e : event) :
  fxChild (runner s) <> None ->
  fxChild (runner (next (step_ s e))) = None ->
  exists i now reasonString caller,
    e = ShutdownNoticeElapsed i now
    /\ tasks s !! i = Some (KillServerSleeping reasonString caller).
Proof.
  intros Hheld Hcleared.
  assert (Hkill : exists i now, e = ShutdownNoticeElapsed i now).
  { revert Hheld Hcleared.
    apply (step_runner_ind txConfig stdin_write translator_t isWindows
             fxServerPath alpinePath cmdArgs (fun _ => True)
             (fun e r r' =>
                fxChild r <> None -> fxChild r' = None ->
                exists i now, e = ShutdownNoticeElapsed i now));
      try apply readings_any; try (intros; cbn in *; congruence).
    - intros e' r mutex Hheld Hcleared.
      destruct (spawnServer_begin_keeps txConfig isWindows fxServerPath
                  alpinePath cmdArgs r mutex) as (_ & _ & _ & Hsame).
      cbv zeta in Hsame. congruence.
    - intros i r announce validation child now _ Hheld.
      unfold spawnServer_resume.
      destruct validation as [result|message]; [|cbn; congruence].
      destruct (truthy_string (errors result)); [cbn; congruence|].
      cbn [spawnVariables with_fxServerHost].
      destruct (spawnVariables r) as [vars|]; [|cbn; congruence].
      destruct (child_pid child) as [p|]; cbn; discriminate.
    - intros e' r msTimestamp reason author isRestarting _ Hheld.
      rewrite killServer_begin_cases.
      destruct (msTimestamp - lastKillRequest r
                <? shutdownNoticeDelayMs txConfig); cbn; congruence.
    - intros i r now reasonString _ _ _. eauto. }
  destruct Hkill as (i & now & ->). cbn [step] in Hcleared.
  destruct (tasks s !! i) as [[reasonString caller| |]|] eqn:Htask;
    cbn in Hcleared; try congruence.
  eauto 6.
Qed.

(** X12. Nothing a child does by itself frees the handle: after any exit,
    close, disconnect, error or stream events, the supervisor still holds the
    child, and a [spawnServer] is refused with 'The server is already
    started.' without a token reset, a new mutex or a process.  The one
    turn of the event loop that clears a handle is the continuation of a
    [killServer] after its sleep, called directly or by [restartServer]. *)
Theorem exited_child_keeps_handle (s : System) (child : ChildProcess)
    (es : list event) (announce : value) (mutex : string) :
  fxChild (runner s) = Some child ->
  Forall (fun e => child_event e = true) es ->
  let s' := next (run_ s es) in
  fxChild (runner s') = Some child
  /\ step_ s' (CallSpawnServer announce mutex)
     = {| next := s';
          effects := [Console "error" already_started];
          settled := [(SpawnServer, Return (Some already_started))] |}
  /\ forall e,
       fxChild (runner (next (step_ s' e))) = None ->
       exists i now reasonString caller,
         e = ShutdownNoticeElapsed i now
         /\ tasks s' !! i = Some (KillServerSleeping reasonString caller).
Proof.
  intros Hchild Hes s'.
  destruct (child_events_keep es s Hes) as [Hkeep _].
  assert (Hs' : fxChild (runner s') = Some child) by (subst s'; congruence).
  split; [exact Hs'|]. split.
  - cbn [step]. unfold enter_spawnServer, spawnServer_begin. rewrite Hs'.
    now rewrite with_runner_same.
  - intros e. apply handle_cleared_by_kill. congruence.
Qed.

(** ** The status after an operation *)

(** X13. A [spawnServer] that returns [null] after the validator's answer
    has stored the child, pushed a record with the child's pid and [start] at
    the reading of the clock, and attached its listeners to the index of that
    record; the status is then 'spawned' and the uptime counts from that
    reading. *)
Theorem spawnServer_success (r r' : FxRunner) (announce : value)
    (validation : completion ValidationResult) (child : ChildProcess)
    (now later : Z) (effs : list effect) (attached : option nat) :
  0 < now ->
  spawn_resume r announce validation child now
  = (r', effs, Return None, attached) ->
  fxChild r' = Some child
  /\ attached = Some (length (history r))
  /\ (exists p,
        child_pid child = Some p
        /\ history r'
           = history r
               ++ [{| pid := Z_toString (Z.of_N p);
                      timestamps := {| start := At now; kill := Absent;
                                       exit := Absent; close := Absent |} |}])
  /\ getStatus (history r') = Return "spawned"
  /\ getUptime (history r') later = later - now.
Proof.
  intros Hnow. unfold spawnServer_resume.
  destruct validation as [result|message]; [|discriminate].
  destruct (truthy_string (errors result)); [discriminate|].
  cbn [spawnVariables with_fxServerHost].
  destruct (spawnVariables r) as [vars|]; [|discriminate].
  destruct (child_pid child) as [p|]; [|discriminate].
  intros [= <- _ <-].
  cbn [fxChild history with_history with_fxChild with_fxServerHost].
  split; [reflexivity|]. split; [reflexivity|]. split; [eauto|]. split.
  - rewrite getStatus_last by (cbn; now apply is_set_At). reflexivity.
  - unfold getUptime. now rewrite last_snoc.
Qed.

(** X14. After a [killServer] that found a child and a last record with
    [start] set, the handle is cleared and the status is that of a killed
    server, 'killed' or 'kill pending' with what is still awaited, whatever
    the record said before: an [exit] that came first no longer reads
    'closing'. *)
Theorem killServer_status (this : FxRunner) (now : Z) (reasonString : string)
    (child : ChildProcess) (older : list HistoryEntry) (curr : HistoryEntry) :
  fxChild this = Some child ->
  history this = older ++ [curr] ->
  started curr ->
  0 < now ->
  let r' := (killServer_resume this now reasonString).1.1 in
  fxChild r' = None
  /\ getStatus (history r')
     = Return
         (match truthy (exit (timestamps curr)),
                truthy (close (timestamps curr)) with
          | true, true => "killed"
          | true, false => "kill pending: close"
          | false, true => "kill pending: exit"
          | false, false => "kill pending: exit, close"
          end).
Proof.
  intros Hchild Hhistory Hstart Hnow. unfold killServer_resume.
  rewrite Hchild. cbn [history with_fxChild].
  rewrite Hhistory, last_snoc, alter_last.
  cbn [fst fxChild history with_history with_fxChild].
  split; [reflexivity|].
  rewrite getStatus_last by exact Hstart.
  unfold pending_keys, Object_keys.
  cbn [set_kill timestamps kill exit close start List.filter get].
  unfold started, is_set in Hstart. rewrite Hstart.
  rewrite (is_set_At now Hnow).
  destruct (truthy (exit (timestamps curr))),
    (truthy (close (timestamps curr))); reflexivity.
Qed.

(** X15. A [killServer] that is not debounced and finds no child process
    writes nothing to a child but still sends the announcement, sleeps, calls
    the cleanup collaborators and returns [null]; the history is untouched and
    the time of the request is kept, so that it debounces the next one. *)
Theorem killServer_without_child (this : FxRunner) (msTimestamp now : Z)
    (reason author : option string) (isRestarting : bool) :
  fxChild this = None ->
  shutdownNoticeDelayMs txConfig <= msTimestamp - lastKillRequest this ->
  kill_begin this msTimestamp reason author isRestarting
  = (with_lastKillRequest msTimestamp this,
     [SendAnnouncement (messageColor isRestarting)
        ("server_actions." +:+ messageType isRestarting +:+ "_discord");
      Sleep (Z.max (shutdownNoticeDelayMs txConfig) 250)],
     Suspended)
  /\ killServer_resume (with_lastKillRequest msTimestamp this) now
       (reasonString_of reason)
     = (with_lastKillRequest msTimestamp this,
        cleanup this (reasonString_of reason), None).
Proof.
  intros Hchild Haccept. split.
  - rewrite killServer_begin_cases.
    destruct (Z.ltb_spec (msTimestamp - lastKillRequest this)
                (shutdownNoticeDelayMs txConfig)); [lia|].
    unfold sendEvent, sendCommand. cbn [is_empty fxChild with_lastKillRequest].
    rewrite Hchild. reflexivity.
  - unfold killServer_resume. cbn [fxChild with_lastKillRequest].
    rewrite Hchild. reflexivity.
Qed.

(** The effects of an event whose data is accepted are those of the write
    of its line. *)
Lemma sendEvent_writes (this : FxRunner) (eventType : string) (data : value) :
  is_empty eventType = false ->
  Encoder.accepted (sendEvent_data data) = true ->
  (sendEvent stdin_write this eventType data).1
  = written stdin_write this
      (Encoder.encode_command_as Number_toString "txaEvent"
         [VString eventType; sendEvent_data data]).
Proof.
  intros Htype Hdata. unfold sendEvent, written. rewrite Htype.
  rewrite (sendCommand_valid stdin_write this "txaEvent"
             [VString eventType; sendEvent_data data] VUndefined eq_refl
             ltac:(repeat constructor; exact Hdata) eq_refl).
  destruct (sendRawCommand_returns stdin_write this
              (Encoder.encode_command_as Number_toString "txaEvent"
                 [VString eventType; sendEvent_data data]) VUndefined eq_refl)
    as [success Hret].
  destruct (sendRawCommand stdin_write this _ VUndefined) as [sent result].
  cbn [snd] in Hret. subst result. reflexivity.
Qed.

(** X21. A [killServer] that is not debounced records the time of the
    request, writes the [serverShuttingDown] event with the delay, the
    author, 'txAdmin' when none is given, and the translated message for the
    server name and the reason, sends the announcement and sleeps for
    [max(shutdownNoticeDelayMs, 250)].  On the state it finds after the
    sleep: with a child handle and a last record in the history it signals
    the child, clears the handle and stamps [kill] on that record; with no
    child handle it does none of the three.  In both cases it calls the
    three cleanup collaborators and returns [null]. *)
Theorem killServer_accepted (this : FxRunner) (msTimestamp : Z)
    (reason author : option string) (isRestarting : bool) :
  shutdownNoticeDelayMs txConfig <= msTimestamp - lastKillRequest this ->
  kill_begin this msTimestamp reason author isRestarting
  = (with_lastKillRequest msTimestamp this,
     written stdin_write (with_lastKillRequest msTimestamp this)
       (Encoder.encode_command_as Number_toString "txaEvent"
          [VString "serverShuttingDown";
           VObject
             [("delay", JNum (server_shutdownNoticeDelayMs txConfig));
              ("author", JStr (from_option id "txAdmin" author));
              ("message",
               JStr (translator_t
                       (if isRestarting then "server_actions.restarting"
                        else "server_actions.stopping")
                       (general_serverName txConfig)
                       (from_option id "no reason provided" reason)))]])
     ++ [SendAnnouncement (if isRestarting then "warning" else "danger")
           (if isRestarting then "server_actions.restarting_discord"
            else "server_actions.stopping_discord");
         Sleep (Z.max (server_shutdownNoticeDelayMs txConfig) 250)],
     Suspended)
  /\ forall (later : FxRunner) (now : Z),
       let reasonString := from_option id "no reason provided" reason in
       (forall child older curr,
          fxChild later = Some child ->
          history later = older ++ [curr] ->
          killServer_resume later now reasonString
          = (with_history (older ++ [set_kill now curr])
               (with_fxChild None later),
             [KillSignal child; ResourcesHandleServerStop;
              PlayerlistHandleServerStop (currentMutex later);
              LogServerClose reasonString],
             None))
       /\ (fxChild later = None ->
           killServer_resume later now reasonString
           = (later,
              [ResourcesHandleServerStop;
               PlayerlistHandleServerStop (currentMutex later);
               LogServerClose reasonString],
              None)).
Proof.
  intros Haccept. split.
  - rewrite killServer_begin_cases.
    destruct (Z.ltb_spec (msTimestamp - lastKillRequest this)
                (shutdownNoticeDelayMs txConfig)); [lia|].
    rewrite sendEvent_writes by reflexivity.
    destruct isRestarting; reflexivity.
  - intros later now reasonString. unfold killServer_resume. split.
    + intros child older curr -> Hhistory. cbn [history with_fxChild].
      rewrite Hhistory, last_snoc, alter_last. reflexivity.
    + intros ->. reflexivity.
Qed.

(** ** Kill requests over time *)

Local Abbreviation accepted_times_ :=
  (accepted_times txConfig stdin_write translator_t isWindows fxServerPath
     alpinePath cmdArgs).

(** X16. Whatever events come, the kill requests the supervisor does not
    reject are spaced: each is at least the shutdown notice delay after the
    one accepted before it, and the first at least that long after the
    [lastKillRequest] it started from. *)
Theorem kill_requests_spaced (es : list event) : forall s : System,
  spaced (shutdownNoticeDelayMs txConfig) (lastKillRequest (runner s))
    (accepted_times_ s es).
Proof.
  induction es as [|e es IH]; intros s; cbn [accepted_times spaced]; [exact I|].
  destruct (kill_request e) as [msTimestamp|] eqn:Hreq.
  - assert (Hstep : exists reason author isRestarting caller,
               step_ s e
               = enter_killServer txConfig stdin_write translator_t s
                   msTimestamp reason author isRestarting caller).
    { destruct e; try discriminate; injection Hreq as <-; cbn [step]; eauto. }
    destruct Hstep as (reason & author & isRestarting & caller & ->).
    rewrite enter_killServer_cases.
    destruct (Z.ltb_spec (msTimestamp - lastKillRequest (runner s))
                (shutdownNoticeDelayMs txConfig)) as [Hlt|Hge].
    + unfold rejected. cbn [settled next]. rewrite String.eqb_refl. apply IH.
    + unfold rejected. cbn [settled next spaced]. split; [exact Hge|].
      match goal with
      | |- context [accepted_times _ _ _ _ _ _ _ ?s' es] => exact (IH s')
      end.
  - rewrite <- (step_keeps_lastKillRequest txConfig stdin_write translator_t
                  isWindows fxServerPath alpinePath cmdArgs s e Hreq).
    apply IH.
Qed.

(** ** A restart from call to return *)

Lemma setupVariables_set (r : FxRunner) :
  exists vars,
    setupVariables isWindows fxServerPath alpinePath cmdArgs r
    = with_spawnVariables (Some vars) r.
Proof. unfold setupVariables. destruct isWindows; eauto. Qed.

(** The kill inside a restart, over: the old child is signalled, its record
    stamped, and the restart goes to sleep. *)
Lemma finish_killServer_in_restart (s : System) (now : Z)
    (reasonString : string) (child : ChildProcess)
    (older : list HistoryEntry) (curr : HistoryEntry) :
  fxChild (runner s) = Some child ->
  history (runner s) = older ++ [curr] ->
  finish_killServer txConfig s now reasonString RestartServer
  = {| next :=
         with_tasks (tasks s ++ [RestartServerSleeping])
           (with_runner
              (with_history (older ++ [set_kill now curr])
                 (with_fxChild None (runner s))) s);
       effects :=
         (KillSignal child :: cleanup (runner s) reasonString)
           ++ (restartServer_delay txConfig (runner s)).1
           ++ [Sleep (restartServer_delay txConfig (runner s)).2];
       settled := [] |}.
Proof.
  intros Hchild Hhistory. unfold finish_killServer, killServer_resume.
  rewrite Hchild. cbn [history with_fxChild].
  rewrite Hhistory, last_snoc, alter_last. cbn [truthy_string].
  unfold restartServer_delay.
  cbn [restartSpawnDelayOverride with_history with_fxChild].
  destruct (negb (restartSpawnDelayOverride (runner s) =? 0)); reflexivity.
Qed.

(** A [spawnServer] entered with no child and the configuration complete
    waits for the validator. *)
Lemma enter_spawnServer_waits (s : System) (announce : value) (mutex : string)
    (caller : operation) :
  fxChild (runner s) = None ->
  isConfigured txConfig = true ->
  exists vars,
    enter_spawnServer txConfig isWindows fxServerPath alpinePath cmdArgs s
      announce mutex caller
    = {| next :=
           with_tasks (tasks s ++ [SpawnServerValidating announce caller])
             (with_runner
                (with_spawnVariables (Some vars)
                   (with_currentMutex (Some mutex) (runner s))) s);
         effects :=
           [ResetToken;
            Console "verbose.log" ("Spawn Variables: " +:+ join " " (args vars))];
         settled := [] |}.
Proof.
  intros Hchild Hconf. unfold enter_spawnServer, spawnServer_begin.
  rewrite Hchild, Hconf.
  destruct (setupVariables_set (with_currentMutex (Some mutex) (runner s)))
    as [vars ->].
  exists vars. reflexivity.
Qed.

(** The validator's answer without errors, and a child with a pid. *)
Lemma finish_spawnServer_started (s : System) (announce : value)
    (caller : operation) (result : ValidationResult) (child : ChildProcess)
    (p : N) (now : Z) (vars : SpawnVariables) :
  spawnVariables (runner s) = Some vars ->
  truthy_string (errors result) = false ->
  child_pid child = Some p ->
  let o :=
    finish_spawnServer txConfig s announce caller (Return result) child now in
  next o
  = with_listeners (listeners s ++ [length (history (runner s))])
      (with_runner
         (with_history
            (history (runner s)
               ++ [{| pid := Z_toString (Z.of_N p);
                      timestamps := {| start := At now; kill := Absent;
                                       exit := Absent; close := Absent |} |}])
            (with_fxChild (Some child)
               (with_fxServerHost (connectEndpoint result) (runner s)))) s)
  /\ settled o = [(caller, Return None)]
  /\ exists before after,
       effects o = before ++ Spawn vars (server_dataPath txConfig) :: after.
Proof.
  intros Hvars Herrors Hpid. unfold finish_spawnServer, spawnServer_resume.
  
  rewrite Herrors.  cbn [spawnVariables with_fxServerHost].
  
  rewrite Hvars, Hpid.  cbn [next settled effects from_option].
  
  split; [reflexivity|]. split; [reflexivity|].
  
  exists ((if truthy_string (warnings result)
           then [Console "warn"
                   (warnings_header +:+ from_option id EmptyString (warnings result))]
           else [])
          ++ [ResetMonitorStats; BufferPlayerlist (currentMutex (runner s))]
          ++ (if announcing announce
              then [SendAnnouncement "success" "server_actions.spawning_discord"]
              else [])).
  exists [Console "ok" (">> [" +:+ Z_toString (Z.of_N p) +:+ "] FXServer Started!");
          LogFxserverBoot (Z_toString (Z.of_N p)); PushRefresh].
  rewrite <- !app_assoc. reflexivity.
Qed.

(** X17. A [restartServer] on a quiet supervisor that holds a child, with
    the configuration complete, a validator that reports no error and a new
    child that got a pid, runs in order: the kill, which signals the old child
    and stamps [kill] on its record, then the restart delay, then the spawn,
    which stores the new child and appends its record; it returns [null] and
    leaves nothing waiting. *)
Theorem restartServer_replaces_child (s : System) (child child' : ChildProcess)
    (older : list HistoryEntry) (curr : HistoryEntry)
    (msTimestamp now now' : Z) (reason author : option string)
    (mutex : string) (result : ValidationResult) (p : N) :
  tasks s = [] ->
  fxChild (runner s) = Some child ->
  history (runner s) = older ++ [curr] ->
  shutdownNoticeDelayMs txConfig <= msTimestamp - lastKillRequest (runner s) ->
  isConfigured txConfig = true ->
  truthy_string (errors result) = false ->
  child_pid child' = Some p ->
  let o :=
    run_ s
      [CallRestartServer msTimestamp reason author;
       ShutdownNoticeElapsed 0 now;
       RestartDelayElapsed 0 mutex;
       ValidatorSettled 0 (Return result) child' now'] in
  settled o = [(RestartServer, Return None)]
  /\ tasks (next o) = []
  /\ fxChild (runner (next o)) = Some child'
  /\ currentMutex (runner (next o)) = Some mutex
  /\ lastKillRequest (runner (next o)) = msTimestamp
  /\ history (runner (next o))
     = older
         ++ [set_kill now curr;
             {| pid := Z_toString (Z.of_N p);
                timestamps := {| start := At now'; kill := Absent;
                                 exit := Absent; close := Absent |} |}]
  /\ listeners (next o) = listeners s ++ [length older + 1]%nat
  /\ exists before between after vars,
       effects o
       = before ++ KillSignal child :: between
           ++ Spawn vars (server_dataPath txConfig) :: after.
Proof.
  intros Htasks Hchild Hhistory Haccept Hconf Herrors Hpid o. subst o.
  destruct s as [r ts ls bh]. cbn [tasks runner listeners] in *. subst ts.
  set (reasonString := reasonString_of reason).
  set (r1 := with_lastKillRequest msTimestamp r).
  set (s1 := {| runner := r1;
                tasks := [KillServerSleeping reasonString RestartServer];
                listeners := ls; blackHole := bh |}).
  set (r2 := with_history (older ++ [set_kill now curr]) (with_fxChild None r1)).
  set (s2 := {| runner := r2; tasks := [RestartServerSleeping];
                listeners := ls; blackHole := bh |}).
  set (s0 := {| runner := r; tasks := []; listeners := ls; blackHole := bh |}).
  assert (H1 : next (step_ s0 (CallRestartServer msTimestamp reason author)) = s1
               /\ settled (step_ s0 (CallRestartServer msTimestamp reason author))
                  = []).
  { cbn [step]. rewrite enter_killServer_cases. cbn [runner s0].
    destruct (Z.ltb_spec (msTimestamp - lastKillRequest r)
                (shutdownNoticeDelayMs txConfig)); [lia|].
    split; reflexivity. }
  destruct H1 as [H1 H1s].
  assert (H2 : step_ s1 (ShutdownNoticeElapsed 0 now)
               = {| next := s2;
                    effects :=
                      (KillSignal child :: cleanup r1 reasonString)
                        ++ (restartServer_delay txConfig r1).1
                        ++ [Sleep (restartServer_delay txConfig r1).2];
                    settled := [] |}).
  { transitivity
      (finish_killServer txConfig
         {| runner := r1; tasks := []; listeners := ls; blackHole := bh |}
         now reasonString RestartServer); [reflexivity|].
    rewrite (finish_killServer_in_restart
               {| runner := r1; tasks := []; listeners := ls; blackHole := bh |}
               now reasonString child older curr Hchild Hhistory).
    reflexivity. }
  destruct (enter_spawnServer_waits
              {| runner := r2; tasks := []; listeners := ls; blackHole := bh |}
              VUndefined mutex RestartServer eq_refl Hconf) as [vars H3].
  set (r3 := with_spawnVariables (Some vars)
               (with_currentMutex (Some mutex) r2)) in *.
  set (s3 := {| runner := r3;
                tasks := [SpawnServerValidating VUndefined RestartServer];
                listeners := ls; blackHole := bh |}).
  assert (H3' : step_ s2 (RestartDelayElapsed 0 mutex)
                = {| next := s3;
                     effects :=
                       [ResetToken;
                        Console "verbose.log"
                          ("Spawn Variables: " +:+ join " " (args vars))];
                     settled := [] |}).
  { transitivity
      (enter_spawnServer txConfig isWindows fxServerPath alpinePath cmdArgs
         {| runner := r2; tasks := []; listeners := ls; blackHole := bh |}
         VUndefined mutex RestartServer); [reflexivity|].
    rewrite H3. reflexivity. }
  destruct (finish_spawnServer_started
              {| runner := r3; tasks := []; listeners := ls; blackHole := bh |}
              VUndefined RestartServer result child' p now' vars
              eq_refl Herrors Hpid) as (H4 & H4s & before & after & H4e).
  assert (H4' : step_ s3 (ValidatorSettled 0 (Return result) child' now')
                = finish_spawnServer txConfig
                    {| runner := r3; tasks := []; listeners := ls;
                       blackHole := bh |}
                    VUndefined RestartServer (Return result) child' now')
    by reflexivity.
  cbn [run]. rewrite H1, H1s, H2. cbn [next effects settled].
  rewrite H3'. cbn [next effects settled].
  rewrite H4', H4, H4s, H4e.
  cbn [next effects settled unchanged app tasks runner listeners with_listeners
       with_runner].
  split; [reflexivity|]. split; [reflexivity|]. split; [reflexivity|].
  split; [reflexivity|]. split; [reflexivity|].
  split; [cbn; now rewrite <- app_assoc|].
  split; [cbn; now rewrite length_app|].
  exists (effects (step_ s0 (CallRestartServer msTimestamp reason author))),
    (cleanup r1 reasonString
       ++ (restartServer_delay txConfig r1).1
       ++ [Sleep (restartServer_delay txConfig r1).2]
       ++ [ResetToken;
           Console "verbose.log" ("Spawn Variables: " +:+ join " " (args vars))]
       ++ before),
    after, vars.
  rewrite !app_nil_r, <- !app_assoc. reflexivity.
Qed.

(** X18. When the kill inside a [restartServer] fails, the restart ends
    there: it returns the kill's failure message, sleeps no restart delay and
    enters no spawn.  That is the kill that finds a child handle and no record
    to stamp; the handle is cleared all the same. *)
Theorem restartServer_stops_on_kill_error (s : System) (i : nat) (now : Z)
    (reasonString : string) (child : ChildProcess) :
  tasks s !! i = Some (KillServerSleeping reasonString RestartServer) ->
  fxChild (runner s) = Some child ->
  history (runner s) = [] ->
  let o := step_ s (ShutdownNoticeElapsed i now) in
  settled o = [(RestartServer, Return (Some could_not_kill))]
  /\ effects o = [KillSignal child; Console "error" could_not_kill; ConsoleDir]
  /\ tasks (next o) = delete i (tasks s)
  /\ fxChild (runner (next o)) = None
  /\ history (runner (next o)) = [].
Proof.
  intros Htask Hchild Hhistory. cbn [step]. rewrite Htask.
  unfold finish_killServer, killServer_resume. cbn [runner with_tasks].
  rewrite Hchild. cbn [history with_fxChild]. rewrite Hhistory.
  cbn [last truthy_string could_not_kill is_empty negb].
  cbn [settled effects next tasks runner with_runner with_tasks fxChild
       history with_fxChild].
  rewrite Hhistory. repeat split.
Qed.

(** ** The automatic start *)

(** X19. [signalStartReady] touches nothing, but for at most one warning,
    and no other effect, unless
    auto start is on, the configuration is complete and there are admins; then
    it enters [spawnServer] with the announcement on, and what can come back
    at once is 'The server is already started.', never the message of a
    missing configuration. *)
Theorem signalStartReady_spawns_when_ready (s : System)
    (autoStart hasAdmins : bool) (mutex : string) :
  let o :=
    signalStartReady txConfig isWindows fxServerPath alpinePath cmdArgs s
      autoStart hasAdmins mutex in
  (autoStart && isConfigured txConfig && hasAdmins = false ->
   next o = s /\ settled o = []
   /\ (length (effects o) <= 1)%nat
   /\ forall e, In e (effects o) -> exists text, e = Console "warn" text)
  /\ (autoStart && isConfigured txConfig && hasAdmins = true ->
      (fxChild (runner s) = None ->
       settled o = []
       /\ tasks (next o)
          = tasks s ++ [SpawnServerValidating (VBoolean true) SpawnServer]
       /\ currentMutex (runner (next o)) = Some mutex
       /\ history (runner (next o)) = history (runner s))
      /\ (fxChild (runner s) <> None ->
          next o = s
          /\ settled o = [(SpawnServer, Return (Some already_started))])).
Proof.
  unfold signalStartReady. split.
  - intros Hoff.
    destruct autoStart; cbn [negb andb] in *;
      [destruct (isConfigured txConfig); cbn [negb andb] in *;
       [destruct hasAdmins; [discriminate|]|]|];
      cbn [next settled effects unchanged];
      (split; [reflexivity|]); (split; [reflexivity|]);
      (split; [cbn; lia|]);
      intros e He; cbn in He;
      repeat (destruct He as [<-|He]; [eauto|]); destruct He.
  - intros Hon. apply andb_prop in Hon as [[-> Hconf]%andb_prop ->].
    rewrite Hconf. cbn [negb]. split.
    + intros Hchild.
      destruct (enter_spawnServer_waits s (VBoolean true) mutex SpawnServer
                  Hchild Hconf) as [vars ->].
      cbn. auto.
    + intros Hchild. unfold enter_spawnServer, spawnServer_begin.
      destruct (fxChild (runner s)); [|congruence].
      cbn [next settled]. now rewrite with_runner_same.
Qed.

End Lifecycle.

(** ** Further instances on the example supervisor *)

Lemma getUptime_keeps_baseline_witness :
  getUptime
    (history
       (runner
          (next (Example.step Example.config
                   (next (Example.run Example.config loaded Example.boot))
                   (ChildExit 0 1700000300)))))
    1700000400
  = 400.
Proof.
  transitivity (getUptime (history Example.running) 1700000400);
    [|reflexivity].
  exact (getUptime_keeps_baseline Example.config Example.write Example.t
           false "/fx/alpine/opt/cfx-server" "/fx/alpine" []
           (next (Example.run Example.config loaded Example.boot))
           (ChildExit 0 1700000300) 1700000400 eq_refl eq_refl).
Defined.

Lemma listeners_find_their_record_witness :
  history
    (runner
       (next (Example.step Example.config
                (next (Example.run Example.config loaded Example.boot))
                (ChildExit 0 1700000300)))) !! 0%nat
  = Some
      {| pid := "4242";
         timestamps := {| start := At 1700000000; kill := Absent;
                          exit := At 1700000300; close := Absent |} |}.
Proof.
  destruct (listeners_find_their_record Example.config Example.write Example.t
              false "/fx/alpine/opt/cfx-server" "/fx/alpine" []
              (next (Example.run Example.config loaded Example.boot))
              0%nat None 1700000300
              (reachable_step Example.config Example.write Example.t false
                 "/fx/alpine/opt/cfx-server" "/fx/alpine" [] _
                 (ValidatorSettled 0 Example.valid Example.child 1700000000)
                 (reachable_step Example.config Example.write Example.t
                    false "/fx/alpine/opt/cfx-server" "/fx/alpine" [] loaded
                    (CallSpawnServer (VBoolean true) "abcde")
                    (reachable_loaded _ _ _ _ _ _ _) I)
                 eq_refl)
              eq_refl)
    as (e & He & Hexit & _).
  injection He as <-. exact Hexit.
Defined.

Lemma exited_child_keeps_handle_witness :
  settled
    (Example.step Example.config
       (next (Example.run Example.config
                (next (Example.run Example.config loaded Example.boot))
                [ChildExit 0 1700000300; ChildClose 0 (Some 1%N) 1700000301]))
       (CallSpawnServer (VBoolean true) "fghij"))
  = [(SpawnServer, Return (Some already_started))].
Proof.
  exact (f_equal settled
           (proj1 (proj2
              (exited_child_keeps_handle Example.config Example.write
                 Example.t false "/fx/alpine/opt/cfx-server" "/fx/alpine" []
                 (next (Example.run Example.config loaded Example.boot))
                 Example.child
                 [ChildExit 0 1700000300; ChildClose 0 (Some 1%N) 1700000301]
                 (VBoolean true) "fghij" eq_refl
                 ltac:(repeat constructor))))).
Defined.

Lemma spawnServer_success_witness :
  getStatus (history Example.running) = Return "spawned"
  /\ getUptime (history Example.running) 1700000060 = 60.
Proof.
  refine (proj2 (proj2 (proj2
            (spawnServer_success Example.config
               (runner
                  (next (Example.step Example.config loaded
                           (CallSpawnServer (VBoolean true) "abcde"))))
               Example.running (VBoolean true) Example.valid Example.child
               1700000000 1700000060 _ (Some 0%nat) eq_refl eq_refl)))).
Defined.

Lemma killServer_status_witness :
  getStatus
    (history (killServer_resume Example.running 1700000105 "maintenance").1.1)
  = Return "kill pending: exit, close".
Proof.
  exact (proj2
           (killServer_status Example.running 1700000105 "maintenance"
              Example.child []
              {| pid := "4242";
                 timestamps := {| start := At 1700000000; kill := Absent;
                                  exit := Absent; close := Absent |} |}
              eq_refl eq_refl eq_refl eq_refl)).
Defined.

Lemma killServer_without_child_witness :
  killServer_begin Example.config Example.write Example.t constructed
    1700000100000 None None false
  = (with_lastKillRequest 1700000100000 constructed,
     [SendAnnouncement "danger" "server_actions.stopping_discord"; Sleep 5000],
     Suspended).
Proof.
  refine (proj1
            (killServer_without_child Example.config Example.write Example.t
               constructed 1700000100000 1700000105 None None false eq_refl _)).
  vm_compute. discriminate.
Defined.

Lemma restartServer_replaces_child_witness :
  settled
    (Example.run Example.config
       (next (Example.run Example.config loaded Example.boot))
       [CallRestartServer 1700000100000 None None;
        ShutdownNoticeElapsed 0 1700000105;
        RestartDelayElapsed 0 "fghij";
        ValidatorSettled 0 Example.valid {| child_pid := Some 4343%N |}
          1700000107])
  = [(RestartServer, Return None)].
Proof.
  refine (proj1
            (restartServer_replaces_child Example.config Example.write
               Example.t false "/fx/alpine/opt/cfx-server" "/fx/alpine" []
               (next (Example.run Example.config loaded Example.boot))
               Example.child {| child_pid := Some 4343%N |} []
               {| pid := "4242";
                  timestamps := {| start := At 1700000000; kill := Absent;
                                   exit := Absent; close := Absent |} |}
               1700000100000 1700000105 1700000107 None None "fghij"
               {| errors := None; warnings := None;
                  connectEndpoint := Some "127.0.0.1:30120" |}
               4343%N eq_refl eq_refl eq_refl _ eq_refl eq_refl eq_refl)).
  vm_compute. discriminate.
Defined.

Lemma restartServer_stops_on_kill_error_witness :
  settled
    (Example.step Example.config
       (next (Example.run Example.config loaded
                [CallSpawnServer (VBoolean true) "abcde";
                 ValidatorSettled 0 Example.valid Example.stillborn 1700000000;
                 CallRestartServer 1700000100000 None None]))
       (ShutdownNoticeElapsed 0 1700000105))
  = [(RestartServer, Return (Some could_not_kill))].
Proof.
  exact (proj1
           (restartServer_stops_on_kill_error Example.config Example.write
              Example.t false "/fx/alpine/opt/cfx-server" "/fx/alpine" []
              (next (Example.run Example.config loaded
                       [CallSpawnServer (VBoolean true) "abcde";
                        ValidatorSettled 0 Example.valid Example.stillborn
                          1700000000;
                        CallRestartServer 1700000100000 None None]))
              0%nat 1700000105 "no reason provided" Example.stillborn
              eq_refl eq_refl eq_refl)).
Defined.

Lemma killServer_accepted_witness :
  killServer_begin Example.config Example.write Example.t_all Example.running
    1700000100000 (Some "maintenance") (Some "admin") false
  = (with_lastKillRequest 1700000100000 Example.running,
     [StdinWrite (Example.shutdown_notice +:+ nl);
      LogSystemCommand Example.shutdown_notice;
      SendAnnouncement "danger" "server_actions.stopping_discord";
      Sleep 5000],
     Suspended)
  /\ killServer_resume Example.running 1700000105 "maintenance"
     = (with_history
          [{| pid := "4242";
              timestamps := {| start := At 1700000000; kill := At 1700000105;
                               exit := Absent; close := Absent |} |}]
          (with_fxChild None Example.running),
        [KillSignal Example.child; ResourcesHandleServerStop;
         PlayerlistHandleServerStop (Some "abcde");
         LogServerClose "maintenance"],
        None).
Proof.
  assert (Haccept : shutdownNoticeDelayMs Example.config
                    <= 1700000100000 - lastKillRequest Example.running)
    by (vm_compute; discriminate).
  destruct (killServer_accepted Example.config Example.write Example.t_all
              Example.running 1700000100000 (Some "maintenance")
              (Some "admin") false Haccept) as [Hbegin Hresume].
  split; [exact Hbegin|].
  exact (proj1 (Hresume Example.running 1700000105) Example.child []
           {| pid := "4242";
              timestamps := {| start := At 1700000000; kill := Absent;
                               exit := Absent; close := Absent |} |}
           eq_refl eq_refl).
Defined.
